(** * CareQ: triage-priority scheduling engine

  A shallow embedding of the backend of the CareQ queue manager
  ([backend/triage.py], [backend/ai_predictor.py], [backend/db.py],
  [backend/app.py]) and the properties its specification states.

  Conventions of the embedding.
  - Python [int] is [Z]; Python [str] is [string], read as ASCII text.
  - Python [float] is an abstract type with the operations of the
    [PyFloat] interface; no law is assumed about them, so every theorem
    holds for IEEE binary64 as well as for the exact rationals, which
    are the instance used to run the model.
  - [dict] values with string keys are [gmap string _]; the job store of
    the scheduler is a [gmap] from job id to job.
  - [datetime] is the number of microseconds of naive local time since
    1970-01-01T00:00:00; [timedelta] is a number of microseconds.
  - Code with effects (clock reads, the table of patients, the job
    store, the feedback history, exceptions) lives in the monad [M]. *)

From Stdlib Require Import Ascii String ZArith QArith Lia.
From stdpp Require Import base tactics option list strings pretty gmap fin_maps sorting.

Local Open Scope Z_scope.
Set Warnings "-register-all".
Set Default Proof Using "Type".

(** ** Strings: [str.lower] and [str.strip] on ASCII text *)

Module PyStr.

Definition lower_ascii (c : ascii) : ascii :=
  let n := nat_of_ascii c in
  if ((65 <=? n)%nat && (n <=? 90)%nat)%bool then ascii_of_nat (n + 32) else c.

Fixpoint lower (s : string) : string :=
  match s with
  | EmptyString => EmptyString
  | String c s' => String (lower_ascii c) (lower s')
  end.

(** The ASCII characters for which [str.isspace] holds:
    TAB, LF, VT, FF, CR, FS, GS, RS, US and the space. *)
Definition isspace (c : ascii) : bool :=
  let n := nat_of_ascii c in
  (((9 <=? n)%nat && (n <=? 13)%nat) || ((28 <=? n)%nat && (n <=? 32)%nat))%bool.

Fixpoint lstrip (s : string) : string :=
  match s with
  | EmptyString => EmptyString
  | String c s' => if isspace c then lstrip s' else s
  end.

(** [rstrip] drops the maximal suffix of whitespace. *)
Fixpoint rstrip (s : string) : string :=
  match s with
  | EmptyString => EmptyString
  | String c s' =>
      match rstrip s' with
      | EmptyString => if isspace c then EmptyString else String c EmptyString
      | r => String c r
      end
  end.

Definition strip (s : string) : string := rstrip (lstrip s).

(** [x in xs] for a list of strings. *)
Definition py_in (x : string) (xs : list string) : bool :=
  existsb (String.eqb x) xs.

End PyStr.

(** ** Severity scorer ([backend/triage.py]) *)

Module Triage.
Import PyStr.

Definition SYMPTOM_SEVERITY : list (string * list (string * Z)) :=
  [ ("critical",
      [ ("shortness of breath", 8); ("chest pain", 7); ("severe pain", 7);
        ("difficulty breathing", 8); ("unconsciousness", 10);
        ("sudden weakness", 7) ]);
    ("urgent",
      [ ("fever", 4); ("persistent cough", 3); ("abdominal pain", 5);
        ("headache with fever", 5); ("vomiting", 3); ("diarrhea", 3);
        ("dizziness", 4) ]);
    ("stable",
      [ ("headache", 2); ("nausea", 2); ("mild pain", 2);
        ("sore throat", 1); ("runny nose", 1) ]) ].

(** The symptom strings the table knows, over all three tiers. *)
Definition known_symptoms : list string :=
  flat_map (fun cat => map fst (snd cat)) SYMPTOM_SEVERITY.

(** The two nested [for] loops over the table: every known symptom that
    occurs in the normalised input adds its weight. *)
Definition add_symptom_scores (normalized_symptoms : list string) (score : Z) : Z :=
  fold_left
    (fun score cat =>
       fold_left
         (fun score entry =>
            if py_in (fst entry) normalized_symptoms then score + snd entry else score)
         (snd cat) score)
    SYMPTOM_SEVERITY score.

(** The body of [get_triage_score] after normalisation. *)
Definition score_normalized (normalized_symptoms : list string) (age : Z) : Z :=
  let score := 0 in
  let score :=
    if age <? 1 then score + 5
    else if age <? 18 then score + 2
    else if age >=? 65 then score + 4
    else score in
  let score := add_symptom_scores normalized_symptoms score in
  let score :=
    if (py_in "chest pain" normalized_symptoms
        && py_in "shortness of breath" normalized_symptoms)%bool
    then score + 5 else score in
  let score :=
    if (py_in "fever" normalized_symptoms
        && py_in "headache" normalized_symptoms)%bool
    then score + 2 else score in
  let score :=
    if (py_in "severe pain" normalized_symptoms
        && ((age <? 5) || (age >? 75)))%bool
    then score + 3 else score in
  Z.max 0 score.

Definition get_triage_score (symptoms : list string) (age : Z) : Z :=
  let normalized_symptoms := map (fun s => strip (lower s)) symptoms in
  score_normalized normalized_symptoms age.

Definition get_severity_level (score : Z) : string :=
  if score >=? 7 then "Critical"
  else if score >=? 4 then "Urgent"
  else "Stable".

(** The weight the table gives to a symptom, [0] when it has none. *)
Definition symptom_weight (s : string) : Z :=
  match
    flat_map (fun cat => filter (fun e => fst e = s) (snd cat)) SYMPTOM_SEVERITY
  with
  | e :: _ => snd e
  | [] => 0
  end.

(** [get_estimated_wait_time], the estimate by severity and queue length. *)
Definition get_estimated_wait_time (severity_level : string)
    (current_queue_length : Z) : Z :=
  if String.eqb severity_level "Critical" then 5 + current_queue_length * 2
  else if String.eqb severity_level "Urgent" then 15 + current_queue_length * 5
  else 30 + current_queue_length * 10.

End Triage.

(** ** Python floats

    The operations the program applies to [float] values.  [truediv n d]
    is the true division [n / d] of two ints with [d] non-zero, rounded
    once; a decimal literal such as [0.7] denotes the same float as
    [7 / 10].  [of_int] is the conversion implicit in mixed arithmetic,
    [fsum] is the builtin [sum] over a list of floats, [to_int] is
    [int(x)], which fails on infinities and NaN. *)

Class PyFloat (F : Type) : Type := {
  of_int : Z → F;
  truediv : Z → Z → F;
  fadd : F → F → F;
  fsub : F → F → F;
  fmul : F → F → F;
  fdiv : F → F → F;
  fsum : list F → F;
  flt : F → F → bool;
  fnonzero : F → bool;
  to_int : F → option Z
}.

(** Exact rational arithmetic: the instance used to run the model. *)
#[export] Instance PyFloat_Q : PyFloat Q := {|
  of_int := inject_Z;
  truediv := fun n d => Qred (inject_Z n / inject_Z d);
  fadd := fun x y => Qred (x + y);
  fsub := fun x y => Qred (x - y);
  fmul := fun x y => Qred (x * y);
  fdiv := fun x y => Qred (x / y);
  fsum := fun xs => Qred (fold_left Qplus xs (inject_Z 0));
  flt := fun x y => negb (Qle_bool y x);
  fnonzero := fun x => negb (Qeq_bool x (inject_Z 0));
  to_int := fun x => Some (Z.quot (Qnum x) (Z.pos (Qden x)))
|}.

(** ** Exceptions and the state-and-exception monad *)

Inductive exn : Type :=
| ZeroDivisionError
| TypeError
| ValueError
| OverflowError
| HTTPError
| HTTPException (status_code : Z).

Inductive result (A : Type) : Type :=
| Ok (a : A)
| Raise (e : exn).
Arguments Ok {A} a.
Arguments Raise {A} e.

(** A computation reads and writes a state [S] and either returns or
    raises; the state at the point of the [raise] is kept, as in Python. *)
Definition M (S A : Type) : Type := S → result A * S.

Definition ret {S A} (a : A) : M S A := fun s => (Ok a, s).

Definition raise {S A} (e : exn) : M S A := fun s => (Raise e, s).

Definition bind {S A B} (m : M S A) (k : A → M S B) : M S B :=
  fun s =>
    match m s with
    | (Ok a, s') => k a s'
    | (Raise e, s') => (Raise e, s')
    end.

(** [try: m except Exception as e: h e] *)
Definition try_except {S A} (m : M S A) (h : exn → M S A) : M S A :=
  fun s =>
    match m s with
    | (Ok a, s') => (Ok a, s')
    | (Raise e, s') => h e s'
    end.

Definition get {S} : M S S := fun s => (Ok s, s).

Definition modify {S} (f : S → S) : M S unit := fun s => (Ok tt, f s).

Definition lift_result {S A} (r : result A) : M S A := fun s => (r, s).

(** [for x in xs: body x] *)
Fixpoint for_each {S A} (xs : list A) (body : A → M S unit) : M S unit :=
  match xs with
  | [] => ret tt
  | x :: xs' => bind (body x) (fun _ => for_each xs' body)
  end.


#[export] Instance M_ret {S} : MRet (M S) := fun A a => ret a.
#[export] Instance M_bind {S} : MBind (M S) := fun A B k m => bind m k.

(** ** Dates

    A [datetime] is a count of microseconds of naive local time since the
    epoch, a [timedelta] a count of microseconds. *)

Definition datetime : Type := Z.

Definition timedelta_minutes (m : Z) : Z := m * 60 * 1000000.

Definition timedelta_seconds (s : Z) : Z := s * 1000000.

Definition dt_hour (t : datetime) : Z := (t / 3600000000) mod 24.

(** [strftime('%A')]: the epoch was a Thursday. *)
Definition dt_weekday (t : datetime) : string :=
  nth (Z.to_nat ((t / 86400000000 + 3) mod 7))
      ["Monday"; "Tuesday"; "Wednesday"; "Thursday"; "Friday"; "Saturday"; "Sunday"]
      "Monday".

(** ** The table of patients ([backend/db.py]) *)

Module Db.

Record Patient : Type := {
  id : Z;
  user_id : Z;
  name : string;
  age : Z;
  symptoms : list string;
  triage_score : Z;
  severity_level : string;
  eta : Z;
  queued_at : datetime;
  called : bool;
  lang_code : string
}.

Definition calculate_dynamic_eta (severity_level : string) (current_queue_length : Z) : Z :=
  if String.eqb severity_level "Critical" then Z.max 5 (current_queue_length * 3)
  else if String.eqb severity_level "Urgent" then Z.max 15 (current_queue_length * 7)
  else Z.max 30 (current_queue_length * 12).

End Db.

(** The request body of [POST /patients/]. *)
Module PatientCreate.

Record t : Type := {
  user_id : Z;
  name : string;
  age : Z;
  symptoms : list string;
  lang_code : string
}.

End PatientCreate.

(** ** The engine: values, state and the estimator ([backend/ai_predictor.py]) *)

Section Engine.
Context {F : Type} {PF : PyFloat F}.

(** The decimal literal [n/d], for instance [lit 7 10] for [0.7]. *)
Definition lit (n d : Z) : F := truediv n d.

(** Values that the untyped [Dict[str, Any]] arguments can hold. *)
Inductive pyval : Type :=
| VNone
| VBool (b : bool)
| VInt (n : Z)
| VFloat (x : F)
| VStr (s : string)
| VList (l : list pyval).

(** [bool(v)] *)
Definition truthy (v : pyval) : bool :=
  match v with
  | VNone => false
  | VBool b => b
  | VInt n => negb (n =? 0)
  | VFloat x => fnonzero x
  | VStr s => negb (String.eqb s "")
  | VList l => match l with [] => false | _ => true end
  end.

(** [v == s] for a string literal [s]; never raises. *)
Definition eq_str (v : pyval) (s : string) : bool :=
  match v with
  | VStr s' => String.eqb s' s
  | _ => false
  end.

(** [v < n] and [v > n] for an int literal [n]: a [TypeError] unless [v]
    is a number. *)
Definition lt_int (v : pyval) (n : Z) : result bool :=
  match v with
  | VBool b => Ok (Z.b2z b <? n)
  | VInt m => Ok (m <? n)
  | VFloat x => Ok (flt x (of_int n))
  | _ => Raise TypeError
  end.

Definition gt_int (v : pyval) (n : Z) : result bool :=
  match v with
  | VBool b => Ok (Z.b2z b >? n)
  | VInt m => Ok (m >? n)
  | VFloat x => Ok (flt (of_int n) x)
  | _ => Raise TypeError
  end.

(** [d.get(k, default)] on a dict with string keys and floats as values:
    a list is unhashable, any other non-string key is simply absent. *)
Definition dict_get (d : gmap string F) (k : pyval) (default_value : F) : result F :=
  match k with
  | VStr s => Ok (default default_value (d !! s))
  | VList _ => Raise TypeError
  | _ => Ok default_value
  end.

(** [xs[-n:]] *)
Definition last_n {A} (n : nat) (xs : list A) : list A :=
  drop (length xs - n) xs.

Definition len {A} (xs : list A) : Z := Z.of_nat (length xs).

Record features : Type := {
  queue_length : Z;
  high_priority_in_queue : Z;
  severity_level : pyval;
  symptom_complexity : string;
  symptom_count : Z;
  age : pyval;
  time_of_day : string;
  day_of_week : string;
  hour : Z
}.

(** An entry of [historical_data]; the keys carry the prefix [fb_] to
    keep them apart from those of a prediction. *)
Record feedback : Type := {
  fb_actual_wait_time : Z;
  fb_predicted_wait_time : Z;
  fb_features : features;
  fb_timestamp : datetime;
  fb_accuracy : F
}.

(** [factors_considered] is the feature bundle, or the two entries the
    fallback reports. *)
Inductive factors : Type :=
| AllFeatures (f : features)
| FallbackFactors (queue_length : Z) (severity : pyval).

Record prediction : Type := {
  predicted_wait_time : Z;
  confidence_score : F;
  factors_considered : factors;
  insights : list string;
  timestamp : datetime
}.

(** A pending job of the scheduler: a [DateTrigger] and the arguments
    bound by the notification closure. *)
Record job : Type := {
  run_date : datetime;
  p_id : Z;
  p_user_id : Z;
  p_lang_code : string
}.

(** The state of the process and of its collaborators: the wall clock as
    the sequence of its future readings, the predictor's history, the
    table of patients in row order, the job store, and whether the HTTP
    call the handlers make to their own API succeeds. *)
Record world : Type := {
  clock : nat → datetime;
  ticks : nat;
  historical_data : list feedback;
  patients : list Db.Patient;
  jobs : gmap string job;
  network_up : bool
}.

Definition set_ticks (n : nat) (w : world) : world :=
  {| clock := clock w; ticks := n; historical_data := historical_data w;
     patients := patients w; jobs := jobs w; network_up := network_up w |}.

Definition set_historical_data (h : list feedback) (w : world) : world :=
  {| clock := clock w; ticks := ticks w; historical_data := h;
     patients := patients w; jobs := jobs w; network_up := network_up w |}.

Definition set_patients (ps : list Db.Patient) (w : world) : world :=
  {| clock := clock w; ticks := ticks w; historical_data := historical_data w;
     patients := ps; jobs := jobs w; network_up := network_up w |}.

Definition set_jobs (js : gmap string job) (w : world) : world :=
  {| clock := clock w; ticks := ticks w; historical_data := historical_data w;
     patients := patients w; jobs := js; network_up := network_up w |}.

(** [datetime.now()]: the next reading of the clock. *)
Definition datetime_now : M world datetime :=
  fun w => (Ok (clock w (ticks w)), set_ticks (S (ticks w)) w).

(** *** Model weights *)

Definition severity_multiplier : gmap string F :=
  list_to_map [("Critical", lit 1 10); ("Urgent", lit 3 10);
               ("Medium", lit 6 10); ("Low", lit 1 1)].

Definition queue_length_factor : F := lit 8 10.

Definition time_of_day_factor : gmap string F :=
  list_to_map [("morning", lit 12 10); ("afternoon", lit 1 1);
               ("evening", lit 8 10); ("night", lit 6 10)].

Definition day_of_week_factor : gmap string F :=
  list_to_map [("Monday", lit 13 10); ("Tuesday", lit 12 10);
               ("Wednesday", lit 11 10); ("Thursday", lit 1 1);
               ("Friday", lit 9 10); ("Saturday", lit 7 10);
               ("Sunday", lit 6 10)].

Definition symptom_complexity_factor : gmap string F :=
  list_to_map [("simple", lit 8 10); ("moderate", lit 1 1); ("complex", lit 13 10)].

(** *** Feature extraction *)

(** [not p.get('called', False)] *)
Definition not_called (p : gmap string pyval) : bool :=
  negb (truthy (default (VBool false) (p !! "called"))).

(** [p.get('severity_level') in ['Critical', 'Urgent']] *)
Definition is_high_priority (p : gmap string pyval) : bool :=
  let s := default VNone (p !! "severity_level") in
  (eq_str s "Critical" || eq_str s "Urgent")%bool.

Definition _extract_features (patient_data : gmap string pyval)
    (current_queue : list (gmap string pyval)) : M world features :=
  now ← datetime_now;
  let queue_length := len (List.filter not_called current_queue) in
  let high_priority_in_queue :=
    len (List.filter (fun p => (not_called p && is_high_priority p)%bool) current_queue) in
  let severity := default (VStr "Medium") (patient_data !! "severity_level") in
  let symptoms := default (VList []) (patient_data !! "symptoms") in
  let age := default (VInt 30) (patient_data !! "age") in
  let hour := dt_hour now in
  let day_of_week := dt_weekday now in
  let time_period :=
    if ((6 <=? hour) && (hour <? 12))%bool then "morning"
    else if ((12 <=? hour) && (hour <? 18))%bool then "afternoon"
    else if ((18 <=? hour) && (hour <? 24))%bool then "evening"
    else "night" in
  let symptom_count := match symptoms with VList l => len l | _ => 1 end in
  let complexity :=
    if symptom_count =? 1 then "simple"
    else if symptom_count <=? 3 then "moderate"
    else "complex" in
  mret {| queue_length := queue_length;
          high_priority_in_queue := high_priority_in_queue;
          severity_level := severity;
          symptom_complexity := complexity;
          symptom_count := symptom_count;
          age := age;
          time_of_day := time_period;
          day_of_week := day_of_week;
          hour := hour |}.

(** *** Base time *)

Definition _calculate_base_waiting_time (features : features) : result F :=
  let base_time := 15 in
  match dict_get severity_multiplier (severity_level features) (lit 6 10) with
  | Raise e => Raise e
  | Ok severity_mult =>
      let queue_factor :=
        fadd (of_int 1) (fmul (of_int (queue_length features)) queue_length_factor) in
      let time_factor := default (lit 1 1) (time_of_day_factor !! time_of_day features) in
      let day_factor := default (lit 1 1) (day_of_week_factor !! day_of_week features) in
      let complexity_factor :=
        default (lit 1 1) (symptom_complexity_factor !! symptom_complexity features) in
      Ok (fmul (fmul (fmul (fmul (fmul (of_int base_time) severity_mult) queue_factor)
                        time_factor) day_factor) complexity_factor)
  end.

(** *** Adjustments from the feedback history *)

Definition _calculate_recent_accuracy : M world F :=
  w ← get;
  if len (historical_data w) <? 5 then mret (lit 8 10)
  else
    let recent_data := last_n 10 (historical_data w) in
    let accuracies := map fb_accuracy recent_data in
    if len accuracies =? 0 then raise ZeroDivisionError
    else mret (fdiv (fsum accuracies) (of_int (len accuracies))).

(** The first block of [_apply_ai_adjustments]: the adaptive step. *)
Definition adaptive_adjustment (base_time : F) : M world F :=
  w ← get;
  if len (historical_data w) >? 10 then
    recent_accuracy ← _calculate_recent_accuracy;
    if flt recent_accuracy (lit 7 10) then
      let adjustment_factor :=
        fadd (of_int 1) (fmul (fsub (lit 7 10) recent_accuracy) (lit 2 10)) in
      mret (fmul base_time adjustment_factor)
    else mret base_time
  else mret base_time.

(** [features['age'] < 18 or features['age'] > 65] *)
Definition is_vulnerable_age (age : pyval) : result bool :=
  match lt_int age 18 with
  | Raise e => Raise e
  | Ok true => Ok true
  | Ok false => gt_int age 65
  end.

Definition _apply_ai_adjustments (base_time : F) (features : features) : M world F :=
  base_time ← adaptive_adjustment base_time;
  let base_time :=
    if high_priority_in_queue features >? 3 then fmul base_time (lit 12 10)
    else base_time in
  let base_time :=
    if (String.eqb (time_of_day features) "morning" && (queue_length features >? 5))%bool
    then fmul base_time (lit 13 10)
    else base_time in
  vulnerable ← lift_result (is_vulnerable_age (age features));
  let base_time := if vulnerable : bool then fmul base_time (lit 9 10) else base_time in
  mret base_time.

(** *** Confidence and insights *)

(** [max(x, y)] and [min(x, y)] on floats keep the first argument unless
    the second is strictly better. *)
Definition py_fmax (x y : F) : F := if flt x y then y else x.

Definition py_fmin (x y : F) : F := if flt y x then y else x.

Definition _calculate_confidence (features : features) : M world F :=
  w ← get;
  let confidence := lit 8 10 in
  let confidence :=
    if len (historical_data w) >? 50 then fadd confidence (lit 1 10) else confidence in
  let confidence :=
    if queue_length features >? 10 then fsub confidence (lit 1 10) else confidence in
  let confidence :=
    if (eq_str (severity_level features) "Critical" && (queue_length features >? 5))%bool
    then fsub confidence (lit 2 10)
    else confidence in
  mret (py_fmax (lit 1 10) (py_fmin (lit 1 1) confidence)).

Definition _generate_insights (features : features) (predicted_time : F) : list string :=
  let insights := [] in
  let insights :=
    if eq_str (severity_level features) "Critical"
    then insights ++ ["Critical priority - you'll be seen very soon"]
    else if eq_str (severity_level features) "Urgent"
    then insights ++ ["Urgent priority - shorter wait time expected"]
    else insights in
  let insights :=
    if queue_length features =? 0
    then insights ++ ["No patients ahead - immediate attention"]
    else if queue_length features <=? 3
    then insights ++ ["Short queue - quick service expected"]
    else if queue_length features <=? 7
    then insights ++ ["Moderate queue - reasonable wait time"]
    else insights ++ ["Longer queue - please be patient"] in
  let insights :=
    if String.eqb (time_of_day features) "morning"
    then insights ++ ["Morning rush hour - busier than usual"]
    else if String.eqb (time_of_day features) "evening"
    then insights ++ ["Evening hours - typically less busy"]
    else insights in
  let insights :=
    if String.eqb (symptom_complexity features) "complex"
    then insights ++ ["Complex symptoms may require longer consultation"]
    else insights in
  insights.

(** *** Fallback and the entry point *)

Definition _fallback_prediction (patient_data : gmap string pyval)
    (current_queue : list (gmap string pyval)) : M world prediction :=
  let queue_length := len (List.filter not_called current_queue) in
  let severity := default (VStr "Medium") (patient_data !! "severity_level") in
  let wait_time :=
    if eq_str severity "Critical" then 5
    else if eq_str severity "Urgent" then 10 + queue_length * 2
    else if eq_str severity "Medium" then 20 + queue_length * 3
    else 30 + queue_length * 4 in
  now ← datetime_now;
  mret {| predicted_wait_time := Z.max 1 wait_time;
          confidence_score := lit 5 10;
          factors_considered := FallbackFactors queue_length severity;
          insights := ["Using fallback prediction - AI temporarily unavailable"];
          timestamp := now |}.

(** [int(x)]: an [OverflowError] on an infinity (a [ValueError] on a NaN
    is not told apart). *)
Definition py_int (x : F) : result Z :=
  match to_int x with
  | Some n => Ok n
  | None => Raise OverflowError
  end.

(** The body of the [try] of [predict_waiting_time]. *)
Definition predict_body (patient_data : gmap string pyval)
    (current_queue : list (gmap string pyval)) : M world prediction :=
  features ← _extract_features patient_data current_queue;
  base_time ← lift_result (_calculate_base_waiting_time features);
  ai_adjusted_time ← _apply_ai_adjustments base_time features;
  confidence ← _calculate_confidence features;
  let insights := _generate_insights features ai_adjusted_time in
  n ← lift_result (py_int ai_adjusted_time);
  now ← datetime_now;
  mret {| predicted_wait_time := Z.max 1 n;
          confidence_score := confidence;
          factors_considered := AllFeatures features;
          insights := insights;
          timestamp := now |}.

Definition predict_waiting_time (patient_data : gmap string pyval)
    (current_queue : list (gmap string pyval)) : M world prediction :=
  try_except (predict_body patient_data current_queue)
             (fun e => _fallback_prediction patient_data current_queue).

(** *** Feedback ingestion *)

Definition update_model (actual_wait_time predicted_wait_time : Z)
    (features : features) : M world unit :=
  now ← datetime_now;
  accuracy ←
    (if Z.max actual_wait_time predicted_wait_time =? 0 then raise ZeroDivisionError
     else mret (fsub (of_int 1)
                  (truediv (Z.abs (actual_wait_time - predicted_wait_time))
                           (Z.max actual_wait_time predicted_wait_time))));
  modify (fun w =>
    set_historical_data
      (historical_data w ++
         [{| fb_actual_wait_time := actual_wait_time;
             fb_predicted_wait_time := predicted_wait_time;
             fb_features := features;
             fb_timestamp := now;
             fb_accuracy := accuracy |}]) w);;
  w ← get;
  if len (historical_data w) >? 100
  then modify (set_historical_data (last_n 100 (historical_data w)))
  else mret tt.

(** ** The queue and the notification scheduler ([backend/app.py]) *)

(** [Patient.triage_score.desc(), Patient.queued_at.asc()]: [p] may come
    before [q]. *)
Definition priority_le (p q : Db.Patient) : bool :=
  ((Db.triage_score q <? Db.triage_score p)
   || ((Db.triage_score p =? Db.triage_score q)
       && (Db.queued_at p <=? Db.queued_at q)))%bool.

(** The strict part of the order: [p] is served before [q]. *)
Definition priority_lt (p q : Db.Patient) : bool :=
  ((Db.triage_score q <? Db.triage_score p)
   || ((Db.triage_score p =? Db.triage_score q)
       && (Db.queued_at p <? Db.queued_at q)))%bool.

Fixpoint insert_by_priority (p : Db.Patient) (rows : list Db.Patient) : list Db.Patient :=
  match rows with
  | [] => [p]
  | q :: rows' =>
      if priority_le p q then p :: rows else q :: insert_by_priority p rows'
  end.

(** [query.order_by(Patient.triage_score.desc(), Patient.queued_at.asc())]:
    rows that agree on both keys stay in row order. *)
Definition order_by_priority (rows : list Db.Patient) : list Db.Patient :=
  fold_right insert_by_priority [] rows.

(** [db.query(Patient).filter(cond)] and [.first()] *)
Definition query_filter (cond : Db.Patient → bool) (rows : list Db.Patient) : list Db.Patient :=
  List.filter cond rows.

Definition query_first (rows : list Db.Patient) : option Db.Patient := head rows.

Definition uncalled (p : Db.Patient) : bool := negb (Db.called p).

(** The ordered list of the patients not yet called: the queue. *)
Definition patients_in_queue (rows : list Db.Patient) : list Db.Patient :=
  order_by_priority (query_filter uncalled rows).

Definition get_patients : M world (list Db.Patient) :=
  w ← get;
  mret (order_by_priority (patients w)).

(** The primary key of a new row. *)
Definition next_id (rows : list Db.Patient) : Z :=
  1 + fold_right Z.max 0 (map Db.id rows).

Definition NOTIFICATION_WINDOW : nat := 3.

(** [f"notify_{patient.id}"] *)
Definition job_id (patient_id : Z) : string := "notify_" +:+ pretty patient_id.

(** [job.id.startswith("notify_")] *)
Definition is_notify_job (k : string) : bool := String.prefix "notify_" k.

(** The body of the loop over the notification window. *)
Definition schedule_notification (patient : Db.Patient) : M world unit :=
  t ← datetime_now;
  let notification_time := t + timedelta_minutes (Db.eta patient - 5) in
  t' ← datetime_now;
  notification_time ←
    (if notification_time <? t'
     then t'' ← datetime_now; mret (t'' + timedelta_seconds 30)
     else mret notification_time);
  modify (fun w =>
    set_jobs
      (<[job_id (Db.id patient) :=
           {| run_date := notification_time;
              p_id := Db.id patient;
              p_user_id := Db.user_id patient;
              p_lang_code := Db.lang_code patient |}]> (jobs w)) w).

Definition reschedule_queue_notifications : M world unit :=
  modify (fun w =>
    set_jobs (filter (fun kv => is_notify_job kv.1 = false) (jobs w)) w);;
  w ← get;
  for_each (take NOTIFICATION_WINDOW (patients_in_queue (patients w)))
           schedule_notification.

(** The handlers fetch [GET /patients/] from their own API and broadcast
    the answer; the fetch raises when the call fails. *)
Definition broadcast_queue_update : M world unit :=
  w ← get;
  if network_up w then mret tt else raise HTTPError.

Definition queue_entry (p : Db.Patient) : gmap string pyval :=
  {[ "id" := VInt (Db.id p);
     "severity_level" := VStr (Db.severity_level p);
     "called" := VBool (Db.called p);
     "eta" := VInt (Db.eta p) ]}.

Definition create_patient (patient : PatientCreate.t) : M world (Z * Z * string) :=
  w ← get;
  let db_patient :=
    query_first
      (query_filter (fun p => Db.user_id p =? PatientCreate.user_id patient) (patients w)) in
  let triage_score :=
    Triage.get_triage_score (PatientCreate.symptoms patient) (PatientCreate.age patient) in
  let severity_level := Triage.get_severity_level triage_score in
  let current_patients := query_filter uncalled (patients w) in
  let current_queue := map queue_entry current_patients in
  let patient_data : gmap string pyval :=
    {[ "severity_level" := VStr severity_level;
       "symptoms" := VList (map VStr (PatientCreate.symptoms patient));
       "age" := VInt (PatientCreate.age patient) ]} in
  ai_prediction ← predict_waiting_time patient_data current_queue;
  let eta := predicted_wait_time ai_prediction in
  db_patient ←
    match db_patient with
    | Some old =>
        let updated :=
          {| Db.id := Db.id old;
             Db.user_id := Db.user_id old;
             Db.name := PatientCreate.name patient;
             Db.age := PatientCreate.age patient;
             Db.symptoms := PatientCreate.symptoms patient;
             Db.triage_score := triage_score;
             Db.severity_level := severity_level;
             Db.eta := eta;
             Db.queued_at := Db.queued_at old;
             Db.called := Db.called old;
             Db.lang_code := PatientCreate.lang_code patient |} in
        modify (fun w =>
          set_patients
            (map (fun p => if Db.id p =? Db.id old then updated else p) (patients w)) w);;
        mret updated
    | None =>
        now ← datetime_now;
        w ← get;
        let created :=
          {| Db.id := next_id (patients w);
             Db.user_id := PatientCreate.user_id patient;
             Db.name := PatientCreate.name patient;
             Db.age := PatientCreate.age patient;
             Db.symptoms := PatientCreate.symptoms patient;
             Db.triage_score := triage_score;
             Db.severity_level := severity_level;
             Db.eta := eta;
             Db.queued_at := now;
             Db.called := false;
             Db.lang_code := PatientCreate.lang_code patient |} in
        modify (fun w => set_patients (patients w ++ [created]) w);;
        mret created
    end;
  broadcast_queue_update;;
  reschedule_queue_notifications;;
  mret (Db.id db_patient, eta, severity_level).

Definition update_patient (patient_id : Z) (called : bool) : M world (Z * bool) :=
  w ← get;
  match query_first (query_filter (fun p => Db.id p =? patient_id) (patients w)) with
  | None => raise (HTTPException 404)
  | Some old =>
      modify (fun w =>
        set_patients
          (map (fun p =>
                  if Db.id p =? Db.id old then
                    {| Db.id := Db.id p; Db.user_id := Db.user_id p;
                       Db.name := Db.name p; Db.age := Db.age p;
                       Db.symptoms := Db.symptoms p;
                       Db.triage_score := Db.triage_score p;
                       Db.severity_level := Db.severity_level p;
                       Db.eta := Db.eta p; Db.queued_at := Db.queued_at p;
                       Db.called := called; Db.lang_code := Db.lang_code p |}
                  else p) (patients w)) w);;
      broadcast_queue_update;;
      reschedule_queue_notifications;;
      mret (Db.id old, called)
  end.
(** ** Vocabulary of the properties *)

(** Running a computation: its result and the state it leaves. *)
Definition result_of {A} (m : M world A) (w : world) : result A := (m w).1.

Definition state_after {A} (m : M world A) (w : world) : world := (m w).2.

(** The fallback rule as a table: a base per level and an increment per
    patient ahead. *)
Definition fallback_base (severity : pyval) : Z :=
  if eq_str severity "Critical" then 5
  else if eq_str severity "Urgent" then 10
  else if eq_str severity "Medium" then 20
  else 30.

Definition fallback_increment (severity : pyval) : Z :=
  if eq_str severity "Critical" then 0
  else if eq_str severity "Urgent" then 2
  else if eq_str severity "Medium" then 3
  else 4.

(** A feature bundle with another severity level. *)
Definition with_severity_level (f : features) (severity : pyval) : features :=
  {| queue_length := queue_length f;
     high_priority_in_queue := high_priority_in_queue f;
     severity_level := severity;
     symptom_complexity := symptom_complexity f;
     symptom_count := symptom_count f;
     age := age f;
     time_of_day := time_of_day f;
     day_of_week := day_of_week f;
     hour := hour f |}.

(** The mean accuracy over the slice [historical_data[-10:]]. *)
Definition recent_mean (history : list feedback) : F :=
  fdiv (fsum (map fb_accuracy (last_n 10 history))) (of_int 10).

(** The accuracy of a feedback record as the specification defines it. *)
Definition spec_accuracy (actual predicted : Z) : F :=
  fsub (of_int 1)
       (truediv (Z.abs (actual - predicted)) (Z.max (Z.max actual predicted) 1)).

(** The time a job is given when the three clock readings of one turn of
    the loop are [t], [t'] and [t'']. *)
Definition fire_time (t t' t'' : datetime) (eta : Z) : datetime :=
  let notification_time := t + timedelta_minutes (eta - 5) in
  if notification_time <? t' then t'' + timedelta_seconds 30 else notification_time.

(** The job registered for a patient, to fire at [fire]. *)
Definition job_for (p : Db.Patient) (fire : datetime) : job :=
  {| run_date := fire;
     p_id := Db.id p;
     p_user_id := Db.user_id p;
     p_lang_code := Db.lang_code p |}.

(** The job ids of a list of patients. *)
Definition job_ids (ps : list Db.Patient) : list string :=
  map (fun p => job_id (Db.id p)) ps.

(** The patients inside the notification window. *)
Definition notification_window (w : world) : list Db.Patient :=
  take NOTIFICATION_WINDOW (patients_in_queue (patients w)).

(** The row of a patient who is admitted again: what [create_patient]
    writes over the row [old]. *)
Definition readmitted (old : Db.Patient) (patient : PatientCreate.t) (eta : Z) : Db.Patient :=
  {| Db.id := Db.id old;
     Db.user_id := Db.user_id old;
     Db.name := PatientCreate.name patient;
     Db.age := PatientCreate.age patient;
     Db.symptoms := PatientCreate.symptoms patient;
     Db.triage_score :=
       Triage.get_triage_score (PatientCreate.symptoms patient) (PatientCreate.age patient);
     Db.severity_level :=
       Triage.get_severity_level
         (Triage.get_triage_score (PatientCreate.symptoms patient)
                                  (PatientCreate.age patient));
     Db.eta := eta;
     Db.queued_at := Db.queued_at old;
     Db.called := Db.called old;
     Db.lang_code := PatientCreate.lang_code patient |}.

(** The row of a patient admitted for the first time. *)
Definition admitted (new_id : Z) (patient : PatientCreate.t) (eta : Z)
    (now : datetime) : Db.Patient :=
  {| Db.id := new_id;
     Db.user_id := PatientCreate.user_id patient;
     Db.name := PatientCreate.name patient;
     Db.age := PatientCreate.age patient;
     Db.symptoms := PatientCreate.symptoms patient;
     Db.triage_score :=
       Triage.get_triage_score (PatientCreate.symptoms patient) (PatientCreate.age patient);
     Db.severity_level :=
       Triage.get_severity_level
         (Triage.get_triage_score (PatientCreate.symptoms patient)
                                  (PatientCreate.age patient));
     Db.eta := eta;
     Db.queued_at := now;
     Db.called := false;
     Db.lang_code := PatientCreate.lang_code patient |}.

(** The rows a request for [user_id] finds. *)
Definition rows_of_user (user_id : Z) (rows : list Db.Patient) : list Db.Patient :=
  query_filter (fun p => Db.user_id p =? user_id) rows.

(** A computation that leaves the state alone but for reading the clock. *)
Definition ticks_only {A} (m : M world A) : Prop :=
  ∀ w, ∃ n, (m w).2 = set_ticks n w.

(** No job churn between two states of the job store: a job pending in
    both keeps its fire time. *)
Definition no_job_churn (before after : world) : Prop :=
  ∀ k j j', jobs before !! k = Some j → jobs after !! k = Some j' →
            run_date j = run_date j'.

(** A world with the given clock and table, no history and no job. *)
Definition world_of (clock : nat → datetime) (rows : list Db.Patient) : world :=
  {| clock := clock; ticks := 0; historical_data := []; patients := rows;
     jobs := ∅; network_up := true |}.

(** A clock that shows [now] at every reading. *)
Definition frozen_clock (now : datetime) (w : world) : Prop :=
  ∀ n, clock w n = now.

End Engine.

(** Two patients are tied when neither is served before the other. *)
Definition tied (p q : Db.Patient) : Prop :=
  priority_lt p q = false ∧ priority_lt q p = false.

(** [p] is not served after [q]. *)
Definition served_no_later (p q : Db.Patient) : Prop := priority_le p q = true.

(** ** Sample data *)

Definition sample_patient (id score eta : Z) (queued_at : datetime) (called : bool)
    : Db.Patient :=
  {| Db.id := id; Db.user_id := 100 + id; Db.name := "patient"; Db.age := 40;
     Db.symptoms := ["fever"]; Db.triage_score := score;
     Db.severity_level := Triage.get_severity_level score; Db.eta := eta;
     Db.queued_at := queued_at; Db.called := called; Db.lang_code := "en" |}.

(** A clock that advances by one second at every reading. *)
Definition ticking_clock (n : nat) : datetime := Z.of_nat n * 1000000.

Definition sample_features : features (F:=Q) :=
  {| queue_length := 2; high_priority_in_queue := 0; severity_level := VStr "Stable";
     symptom_complexity := "simple"; symptom_count := 1; age := VInt 40;
     time_of_day := "afternoon"; day_of_week := "Thursday"; hour := 13 |}.

Definition sample_feedback (accuracy : Q) : feedback (F:=Q) :=
  {| fb_actual_wait_time := 10; fb_predicted_wait_time := 20;
     fb_features := sample_features; fb_timestamp := 0; fb_accuracy := accuracy |}.

(** A history of twelve records: two perfect old ones, then ten at 0.5. *)
Definition sample_history : list (feedback (F:=Q)) :=
  replicate 2 (sample_feedback 1) ++ replicate 10 (sample_feedback (1 # 2)).

Definition world_with_history (history : list (feedback (F:=Q))) : world (F:=Q) :=
  {| clock := fun _ => 0; ticks := 0; historical_data := history; patients := [];
     jobs := ∅; network_up := true |}.

(** A request whose age is not a number, and a queue of three entries,
    one of them called. *)
Definition sample_patient_data : gmap string (pyval (F:=Q)) :=
  {[ "severity_level" := VStr "Urgent"; "age" := VNone ]}.

Definition sample_queue : list (gmap string (pyval (F:=Q))) :=
  [ {[ "called" := VBool false ]}; {[ "called" := VBool true ]}; ∅ ].

Definition sample_request : PatientCreate.t :=
  {| PatientCreate.user_id := 101; PatientCreate.name := "again";
     PatientCreate.age := 70; PatientCreate.symptoms := ["chest pain"];
     PatientCreate.lang_code := "hi" |}.

(** ** Further code of the backend *)

Section EngineMore.
Context {F : Type} {PF : PyFloat F}.

(** [s.split(sep)] for a separator of one character: the pieces between
    the separators, the empty ones included. *)
Fixpoint split_on (sep : ascii) (s : string) : list string :=
  match s with
  | EmptyString => [EmptyString]
  | String c s' =>
      if Ascii.eqb c sep then EmptyString :: split_on sep s'
      else
        match split_on sep s' with
        | piece :: pieces => String c piece :: pieces
        | [] => [String c EmptyString]
        end
  end.

(** [GET /ai/predict-wait-time]: the prediction for a patient who is not
    admitted, over the queue of the moment. *)
Definition predict_wait_time (severity_level : string) (symptoms : string) (age : Z)
    : M (world (F:=F)) prediction :=
  w ← get;
  let current_patients := query_filter uncalled (patients w) in
  let current_queue := map queue_entry current_patients in
  let symptoms_list := map PyStr.strip (split_on "," symptoms) in
  let patient_data : gmap string pyval :=
    {[ "severity_level" := VStr severity_level;
       "symptoms" := VList (map VStr symptoms_list);
       "age" := VInt age ]} in
  predict_waiting_time patient_data current_queue.

(** A run of calls of [update_model], one per pair of an actual and a
    predicted wait. *)
Definition record_outcomes (outcomes : list (Z * Z)) (f : features)
    : M (world (F:=F)) unit :=
  for_each outcomes (fun outcome => update_model outcome.1 outcome.2 f).

(** The entries such a run appends when the clock is at reading [n]. *)
Fixpoint outcome_entries (clock : nat → datetime) (n : nat) (outcomes : list (Z * Z))
    (f : features) : list (feedback (F:=F)) :=
  match outcomes with
  | [] => []
  | outcome :: outcomes' =>
      {| fb_actual_wait_time := outcome.1;
         fb_predicted_wait_time := outcome.2;
         fb_features := f;
         fb_timestamp := clock n;
         fb_accuracy :=
           fsub (of_int 1)
                (truediv (Z.abs (outcome.1 - outcome.2)) (Z.max outcome.1 outcome.2)) |}
      :: outcome_entries clock (S n) outcomes' f
  end.

(** The row [update_patient] writes over a row. *)
Definition with_called (p : Db.Patient) (called : bool) : Db.Patient :=
  {| Db.id := Db.id p; Db.user_id := Db.user_id p; Db.name := Db.name p;
     Db.age := Db.age p; Db.symptoms := Db.symptoms p;
     Db.triage_score := Db.triage_score p;
     Db.severity_level := Db.severity_level p; Db.eta := Db.eta p;
     Db.queued_at := Db.queued_at p; Db.called := called;
     Db.lang_code := Db.lang_code p |}.

(** The same world with the API of the handlers out of reach. *)
Definition offline (w : world (F:=F)) : world (F:=F) :=
  {| clock := clock w; ticks := ticks w; historical_data := historical_data w;
     patients := patients w; jobs := jobs w; network_up := false |}.

(** A clock that never runs backwards. *)
Definition monotone_clock (w : world (F:=F)) : Prop :=
  ∀ n m, (n ≤ m)%nat → clock w n ≤ clock w m.

(** The comparison of floats is asymmetric, as [<] on binary64 is. *)
Definition flt_asymmetric : Prop :=
  ∀ x y : F, flt x y = true → flt y x = false.

End EngineMore.

(** The normal form in which the scorer compares symptoms. *)
Definition normalize_symptom (s : string) : string := PyStr.strip (PyStr.lower s).

(** [sep.join(pieces)] *)
Fixpoint join_with (sep : string) (pieces : list string) : string :=
  match pieces with
  | [] => EmptyString
  | [piece] => piece
  | piece :: pieces' => piece +:+ sep +:+ join_with sep pieces'
  end.

(** The characters of a string. *)
Fixpoint chars (s : string) : list ascii :=
  match s with
  | EmptyString => []
  | String c s' => c :: chars s'
  end.

(** ** Queue analytics ([get_queue_analytics] of [backend/ai_predictor.py])

    Three more operations on floats: [x == y], the builtin [sum] over
    numbers of which at least one is a float, and [round(x, 1)]. *)

Class PyFloatOps (F : Type) : Type := {
  feqb : F → F → bool;
  fsum_mixed : list (Z + F) → F;
  fround1 : F → F
}.

(** [round(x, 1)] on a rational: to the nearest tenth, a tie going to
    the even one. *)
Definition Q_round1 (x : Q) : Q :=
  let n := 10 * Qnum x in
  let d := Z.pos (Qden x) in
  let q := n / d in
  let r := n mod d in
  let tenths :=
    if 2 * r <? d then q
    else if d <? 2 * r then q + 1
    else if Z.even q then q else q + 1 in
  Qred (inject_Z tenths / inject_Z 10).

#[export] Instance PyFloatOps_Q : PyFloatOps Q := {|
  feqb := Qeq_bool;
  fsum_mixed := fun xs =>
    Qred (fold_left (fun acc x =>
                       match x with
                       | inl n => Qplus acc (inject_Z n)
                       | inr y => Qplus acc y
                       end) xs (inject_Z 0));
  fround1 := Q_round1
|}.

Section Analytics.
Context {F : Type} {PF : PyFloat F} {PO : PyFloatOps F}.

(** A number: an [int] or a [float]. *)
Inductive pynum : Type :=
| NInt (n : Z)
| NFloat (x : F).

(** The number a value is, if it is one; [bool] is a kind of [int]. *)
Definition as_number (v : pyval) : option (Z + F) :=
  match v with
  | VBool b => Some (inl (Z.b2z b))
  | VInt n => Some (inl n)
  | VFloat x => Some (inr x)
  | _ => None
  end.

Fixpoint as_numbers (vs : list pyval) : option (list (Z + F)) :=
  match vs with
  | [] => Some []
  | v :: vs' =>
      match as_number v, as_numbers vs' with
      | Some n, Some ns => Some (n :: ns)
      | _, _ => None
      end
  end.

Fixpoint all_ints (ns : list (Z + F)) : option (list Z) :=
  match ns with
  | [] => Some []
  | inl n :: ns' => match all_ints ns' with Some zs => Some (n :: zs) | None => None end
  | inr _ :: _ => None
  end.

(** [sum(vs)]: a [TypeError] when a value is not a number, an [int]
    when all are. *)
Definition py_sum (vs : list pyval) : result pynum :=
  match as_numbers vs with
  | None => Raise TypeError
  | Some ns =>
      match all_ints ns with
      | Some zs => Ok (NInt (fold_left Z.add zs 0))
      | None => Ok (NFloat (fsum_mixed ns))
      end
  end.

(** Whether two hashable values are the same key of a dict: numbers by
    their value, [True] being [1]; two NaN are two keys. *)
Definition key_eqb (a b : pyval) : bool :=
  match as_number a, as_number b with
  | Some (inl n), Some (inl m) => n =? m
  | Some (inl n), Some (inr y) => feqb (of_int n) y
  | Some (inr x), Some (inl m) => feqb x (of_int m)
  | Some (inr x), Some (inr y) => feqb x y
  | None, None =>
      match a, b with
      | VNone, VNone => true
      | VStr s, VStr t => String.eqb s t
      | _, _ => false
      end
  | _, _ => false
  end.

(** A dict from values to counts, in the order of insertion. *)
Fixpoint dict_count (d : list (pyval * Z)) (k : pyval) : Z :=
  match d with
  | [] => 0
  | (k', n) :: d' => if key_eqb k' k then n else dict_count d' k
  end.

(** [d[k] = d.get(k, 0) + 1] for a hashable [k] *)
Fixpoint dict_incr (d : list (pyval * Z)) (k : pyval) : list (pyval * Z) :=
  match d with
  | [] => [(k, 1)]
  | (k', n) :: d' =>
      if key_eqb k' k then (k', n + 1) :: d' else (k', n) :: dict_incr d' k
  end.

(** The loop that fills [priority_dist]; a list is not hashable. *)
Fixpoint count_priorities (uncalled_patients : list (gmap string pyval))
    (priority_dist : list (pyval * Z)) : result (list (pyval * Z)) :=
  match uncalled_patients with
  | [] => Ok priority_dist
  | patient :: rest =>
      let severity := default (VStr "Medium") (patient !! "severity_level") in
      match severity with
      | VList _ => Raise TypeError
      | _ => count_priorities rest (dict_incr priority_dist severity)
      end
  end.

Record analytics : Type := {
  total_patients : Z;
  uncalled_patients : option Z;
  average_wait_time : pynum;
  priority_distribution : list (pyval (F:=F) * Z);
  peak_hour_prediction : string;
  recommendations : list string;
  ai_confidence : option F
}.

(** [avg_wait > 45] *)
Definition above_45 (avg_wait : pynum) : bool :=
  match avg_wait with
  | NInt n => n >? 45
  | NFloat x => flt (of_int 45) x
  end.

(** [round(avg_wait, 1)] *)
Definition py_round1 (avg_wait : pynum) : pynum :=
  match avg_wait with
  | NInt n => NInt n
  | NFloat x => NFloat (fround1 x)
  end.

Definition get_queue_analytics (current_queue : list (gmap string pyval))
    : M (world (F:=F)) analytics :=
  match current_queue with
  | [] =>
      mret {| total_patients := 0;
              uncalled_patients := None;
              average_wait_time := NInt 0;
              priority_distribution := [];
              peak_hour_prediction := "No data available";
              recommendations := ["No patients in queue"];
              ai_confidence := None |}
  | _ =>
      let total_patients := len current_queue in
      let uncalled_patients := List.filter not_called current_queue in
      priority_dist ← lift_result (count_priorities uncalled_patients []);
      avg_wait ←
        lift_result
          (match uncalled_patients with
           | [] => Ok (NInt 0)
           | _ =>
               match py_sum (map (fun p => default (VInt 15) (p !! "eta"))
                                 uncalled_patients) with
               | Raise e => Raise e
               | Ok (NInt n) => Ok (NFloat (truediv n (len uncalled_patients)))
               | Ok (NFloat x) => Ok (NFloat (fdiv x (of_int (len uncalled_patients))))
               end
           end);
      now ← datetime_now;
      let peak_prediction :=
        if ((9 <=? dt_hour now) && (dt_hour now <=? 11))%bool
        then "Currently in peak hours (9-11 AM)"
        else if ((14 <=? dt_hour now) && (dt_hour now <=? 16))%bool
        then "Currently in peak hours (2-4 PM)"
        else "Peak hours expected at 9-11 AM or 2-4 PM" in
      let recommendations := [] in
      let recommendations :=
        if len uncalled_patients >? 8
        then recommendations ++ ["High queue volume - consider additional staff"]
        else recommendations in
      let recommendations :=
        if dict_count priority_dist (VStr "Critical") >? 2
        then recommendations ++ ["Multiple critical patients - prioritize urgent care"]
        else recommendations in
      let recommendations :=
        if above_45 avg_wait
        then recommendations ++ ["Long wait times - inform patients of delays"]
        else recommendations in
      mret {| total_patients := total_patients;
              uncalled_patients := Some (len uncalled_patients);
              average_wait_time := py_round1 avg_wait;
              priority_distribution := priority_dist;
              peak_hour_prediction := peak_prediction;
              recommendations := recommendations;
              ai_confidence := Some (lit 85 100) |}
  end.

(** The dict the handler [GET /ai/queue-analytics] makes of a row; the
    ISO string of [queued_at] is stood for by the instant it writes. *)
Definition analytics_entry (p : Db.Patient) : gmap string (pyval (F:=F)) :=
  {[ "id" := VInt (Db.id p);
     "severity_level" := VStr (Db.severity_level p);
     "called" := VBool (Db.called p);
     "eta" := VInt (Db.eta p);
     "queued_at" := VInt (Db.queued_at p) ]}.

(** [GET /ai/queue-analytics] *)
Definition queue_analytics_endpoint : M (world (F:=F)) analytics :=
  w ← get;
  get_queue_analytics (map analytics_entry (patients w)).

(** The sum of the counts of a dict. *)
Definition dict_total (d : list (pyval (F:=F) * Z)) : Z :=
  fold_right Z.add 0 (map snd d).

(** The uncalled rows of a level. *)
Definition uncalled_of_level (level : string) (rows : list Db.Patient) : list Db.Patient :=
  List.filter (fun p => (uncalled p && String.eqb (Db.severity_level p) level)%bool) rows.

(** The sum of the etas of rows. *)
Definition total_eta (rows : list Db.Patient) : Z :=
  fold_left Z.add (map Db.eta rows) 0.

(** The keys of a dict are all strings. *)
Definition string_keys (d : list (pyval (F:=F) * Z)) : Prop :=
  Forall (fun kv => ∃ s, kv.1 = VStr s) d.

End Analytics.

(** * Properties *)

Import PyStr Triage.

Ltac monad_unfold :=
  unfold result_of, state_after, mbind, M_bind, bind, mret, M_ret, ret, get, modify,
    raise, lift_result, try_except, datetime_now in *.

(** ** Severity scorer *)


Lemma py_in_app x l1 l2 : py_in x (l1 ++ l2) = (py_in x l1 || py_in x l2)%bool.
Proof. apply existsb_app. Qed.

Lemma py_in_cons_ne x y l : x ≠ y → py_in x (y :: l) = py_in x l.
Proof.
  intros Hne. unfold py_in. simpl.
  destruct (String.eqb_spec x y); [contradiction | reflexivity].
Qed.

(** Dropping an entry that is not [k] does not change whether [k] occurs. *)
Lemma py_in_drop_other k s pre post :
  k ≠ s → py_in k (pre ++ s :: post) = py_in k (pre ++ post).
Proof.
  intros Hne. rewrite !py_in_app. by rewrite py_in_cons_ne.
Qed.

(** The score looks at the normalised input only through the membership
    of the symptoms of the table. *)
Section ScoreExt.
Variables n1 n2 : list string.
Hypothesis same_known :
  ∀ k, py_in k known_symptoms = true → py_in k n1 = py_in k n2.

Lemma tier_scores_ext (tier : list (string * Z)) (score : Z) :
  Forall (fun e => py_in (fst e) n1 = py_in (fst e) n2) tier →
  fold_left (fun score entry =>
               if py_in (fst entry) n1 then score + snd entry else score) tier score
  = fold_left (fun score entry =>
               if py_in (fst entry) n2 then score + snd entry else score) tier score.
Proof using Type.
  intros Htier. revert score.
  induction Htier as [| e tier He _ IH]; intros score; simpl; [reflexivity |].
  rewrite He. apply IH.
Qed.

Lemma add_symptom_scores_ext (score : Z) :
  add_symptom_scores n1 score = add_symptom_scores n2 score.
Proof using same_known.
  unfold add_symptom_scores.
  assert (Forall (fun cat =>
            Forall (fun e => py_in (fst e) n1 = py_in (fst e) n2) (snd cat))
            SYMPTOM_SEVERITY) as Htable.
  { unfold SYMPTOM_SEVERITY.
    repeat (constructor; simpl); apply same_known; reflexivity. }
  revert score.
  induction Htable as [| cat table Hcat _ IH]; intros score; simpl; [reflexivity |].
  rewrite (tier_scores_ext _ _ Hcat). apply IH.
Qed.

Lemma score_normalized_ext age :
  score_normalized n1 age = score_normalized n2 age.
Proof using same_known.
  unfold score_normalized.
  rewrite add_symptom_scores_ext.
  rewrite (same_known "chest pain"), (same_known "shortness of breath"),
    (same_known "fever"), (same_known "headache"), (same_known "severe pain")
    by reflexivity.
  reflexivity.
Qed.

End ScoreExt.

Lemma score_normalized_nonneg n age : 0 ≤ score_normalized n age.
Proof. unfold score_normalized. apply Z.le_max_l. Qed.

Lemma score_normalized_negative_age n age :
  age < 0 → score_normalized n age = score_normalized n 0.
Proof.
  intros Hneg. unfold score_normalized.
  assert ((age <? 1) = true) as -> by lia.
  assert ((age <? 5) = true) as -> by lia.
  reflexivity.
Qed.




(** C8. For the symptoms chest pain and shortness of breath at age 45
    the score is the sum of the two weights of the table and of the bonus
    of 5 for their combination, with nothing for the age, and the level
    of that score is Critical, the score being at least 7. *)
Theorem chest_pain_and_breath_critical :
  get_triage_score ["chest pain"; "shortness of breath"] 45
  = symptom_weight "chest pain" + symptom_weight "shortness of breath" + 5
  ∧ symptom_weight "chest pain" = 7
  ∧ symptom_weight "shortness of breath" = 8
  ∧ get_triage_score [] 45 = 0
  ∧ 7 ≤ get_triage_score ["chest pain"; "shortness of breath"] 45
  ∧ get_severity_level (get_triage_score ["chest pain"; "shortness of breath"] 45)
    = "Critical".
Proof. split_and!; vm_compute; done. Qed.

(** ** Estimator *)

Section EstimatorFacts.
Context {F : Type} {PF : PyFloat F}.
Implicit Types (w : world (F:=F)) (f : features (F:=F)).

Lemma last_n_short {A} (n : nat) (xs : list A) :
  (length xs ≤ n)%nat → last_n n xs = xs.
Proof.
  intros Hle. unfold last_n. replace (length xs - n)%nat with 0%nat by lia.
  reflexivity.
Qed.

Lemma length_last_n {A} (n : nat) (xs : list A) :
  length (last_n n xs) = Nat.min n (length xs).
Proof. unfold last_n. rewrite length_drop. lia. Qed.

(** [xs[-n:]] of a list that grew by one keeps the new entry and drops
    one more of the old ones. *)
Lemma last_n_snoc {A} (n : nat) (xs : list A) (x : A) :
  last_n (S n) (xs ++ [x]) = last_n n xs ++ [x].
Proof.
  unfold last_n. rewrite length_app. simpl.
  replace (length xs + 1 - S n)%nat with (length xs - n)%nat by lia.
  rewrite drop_app_le by lia. reflexivity.
Qed.

(** C1, at the input that breaks it. With an actual and a predicted wait
    of zero minutes, [update_model] divides by [max(0, 0)]: it raises a
    [ZeroDivisionError] and appends nothing. *)
Theorem update_model_raises_on_zero f w :
  result_of (update_model 0 0 f) w = Raise ZeroDivisionError
  ∧ historical_data (state_after (update_model 0 0 f) w) = historical_data w.
Proof. split; reflexivity. Qed.

(** Away from that input one record is appended, with the accuracy of
    the code, and the history is cut to its last 100 entries. *)
Lemma update_model_appends (actual predicted : Z) f w :
  Z.max actual predicted ≠ 0 →
  let entry :=
    {| fb_actual_wait_time := actual;
       fb_predicted_wait_time := predicted;
       fb_features := f;
       fb_timestamp := clock w (ticks w);
       fb_accuracy :=
         fsub (of_int 1) (truediv (Z.abs (actual - predicted)) (Z.max actual predicted)) |} in
  result_of (update_model actual predicted f) w = Ok tt
  ∧ historical_data (state_after (update_model actual predicted f) w)
    = last_n 100 (historical_data w ++ [entry]).
Proof.
  intros Hmax entry. unfold update_model. monad_unfold. simpl.
  destruct (Z.eqb_spec (Z.max actual predicted) 0) as [?|_]; [contradiction |].
  simpl. fold entry.
  destruct (len (historical_data w ++ [entry]) >? 100) eqn:Hlen; simpl.
  - split; reflexivity.
  - split; [reflexivity |]. rewrite last_n_short; [reflexivity |].
    unfold len in Hlen. lia.
Qed.

Lemma spec_accuracy_agrees (actual predicted : Z) :
  0 ≤ actual → 0 ≤ predicted → Z.max actual predicted ≠ 0 →
  spec_accuracy actual predicted
  = fsub (of_int 1) (truediv (Z.abs (actual - predicted)) (Z.max actual predicted)).
Proof.
  intros Ha Hp Hmax. unfold spec_accuracy.
  replace (Z.max (Z.max actual predicted) 1) with (Z.max actual predicted) by lia.
  reflexivity.
Qed.

(** A full history loses its oldest record to the new one. *)
Lemma update_model_evicts_oldest (actual predicted : Z) f w :
  Z.max actual predicted ≠ 0 →
  length (historical_data w) = 100%nat →
  let history' := historical_data (state_after (update_model actual predicted f) w) in
  length history' = 100%nat
  ∧ ∃ entry, history' = drop 1 (historical_data w) ++ [entry]
      ∧ fb_actual_wait_time entry = actual
      ∧ fb_predicted_wait_time entry = predicted
      ∧ fb_accuracy entry
        = fsub (of_int 1) (truediv (Z.abs (actual - predicted)) (Z.max actual predicted)).
Proof.
  intros Hmax Hfull history'.
  destruct (update_model_appends actual predicted f w Hmax) as [_ Hhist].
  subst history'. rewrite Hhist, last_n_snoc.
  unfold last_n at 1 2. rewrite Hfull. change (100 - 99)%nat with 1%nat.
  split.
  - rewrite length_app, length_drop, Hfull. reflexivity.
  - eexists. split; [reflexivity |]. split_and!; reflexivity.
Qed.

(** A history never grows beyond 100 records. *)
Lemma update_model_bounded (actual predicted : Z) f w :
  (length (historical_data w) ≤ 100)%nat →
  (length (historical_data (state_after (update_model actual predicted f) w)) ≤ 100)%nat.
Proof.
  intros Hlen. destruct (Z.eq_dec (Z.max actual predicted) 0) as [Hzero|Hmax].
  - unfold state_after, update_model. monad_unfold. simpl.
    rewrite Hzero. simpl. exact Hlen.
  - destruct (update_model_appends actual predicted f w Hmax) as [_ Hhist].
    rewrite Hhist, length_last_n. lia.
Qed.

Lemma recent_accuracy_long w :
  len (historical_data w) > 10 →
  _calculate_recent_accuracy w = (Ok (recent_mean (historical_data w)), w).
Proof.
  intros Hlen. unfold _calculate_recent_accuracy, recent_mean, len in *. monad_unfold.
  assert (length (last_n 10 (historical_data w)) = 10%nat) as Hten.
  { rewrite length_last_n. lia. }
  destruct (Z.ltb_spec (Z.of_nat (length (historical_data w))) 5) as [?|_]; [lia |].
  rewrite length_map, Hten. reflexivity.
Qed.


Lemma severity_multiplier_default (s : string) :
  s ≠ "Critical" → s ≠ "Urgent" → s ≠ "Medium" → s ≠ "Low" →
  severity_multiplier (F:=F) !! s = None.
Proof.
  intros H1 H2 H3 H4. unfold severity_multiplier. simpl.
  rewrite !lookup_insert_ne by congruence. apply lookup_empty.
Qed.

Lemma severity_multiplier_medium :
  severity_multiplier (F:=F) !! "Medium" = Some (lit 6 10).
Proof. reflexivity. Qed.


Lemma len_nonneg {A} (xs : list A) : 0 ≤ len xs.
Proof. unfold len. lia. Qed.

Lemma fallback_prediction_spec (pd : gmap string pyval) (q : list (gmap string pyval)) w :
  let severity := default (VStr "Medium") (pd !! "severity_level") in
  let n := len (List.filter not_called q) in
  ∃ r, _fallback_prediction pd q w = (Ok r, set_ticks (S (ticks w)) w)
    ∧ predicted_wait_time r = fallback_base severity + fallback_increment severity * n
    ∧ confidence_score r = lit 5 10
    ∧ insights r = ["Using fallback prediction - AI temporarily unavailable"].
Proof.
  intros severity n. unfold _fallback_prediction. monad_unfold.
  eexists. split; [reflexivity |]. cbn [predicted_wait_time confidence_score insights].
  split; [| split; reflexivity].
  fold severity n. pose proof (len_nonneg (List.filter not_called q)) as Hn. fold n in Hn.
  unfold fallback_base, fallback_increment.
  destruct (eq_str severity "Critical"); [lia |].
  destruct (eq_str severity "Urgent"); [lia |].
  destruct (eq_str severity "Medium"); lia.
Qed.

(** C2. The fallback always returns; so does [predict_waiting_time]; and
    whenever the body of its [try] raises, [predict_waiting_time] returns
    what the fallback returns from the state the failure left: a wait of
    the base of the level plus its increment per patient not yet called,
    the confidence 0.5 and the one insight. *)
Theorem predict_waiting_time_falls_back
    (pd : gmap string pyval) (q : list (gmap string pyval)) w :
  let severity := default (VStr "Medium") (pd !! "severity_level") in
  let n := len (List.filter not_called q) in
  (∃ r w', _fallback_prediction pd q w = (Ok r, w'))
  ∧ (∃ r w', predict_waiting_time pd q w = (Ok r, w'))
  ∧ (∀ e w1, predict_body pd q w = (Raise e, w1) →
       ∃ r w2, predict_waiting_time pd q w = (Ok r, w2)
         ∧ _fallback_prediction pd q w1 = (Ok r, w2)
         ∧ predicted_wait_time r = fallback_base severity + fallback_increment severity * n
         ∧ confidence_score r = lit 5 10
         ∧ insights r = ["Using fallback prediction - AI temporarily unavailable"]).
Proof.
  intros severity n. split; [| split].
  - destruct (fallback_prediction_spec pd q w) as (r & Hr & _). eauto.
  - unfold predict_waiting_time, try_except.
    destruct (predict_body pd q w) as [[r|e] w1]; [eauto |].
    destruct (fallback_prediction_spec pd q w1) as (r & Hr & _). eauto.
  - intros e w1 Hraise.
    destruct (fallback_prediction_spec pd q w1) as (r & Hr & Hrest).
    exists r, (set_ticks (S (ticks w1)) w1). split; [| split; [exact Hr | exact Hrest]].
    unfold predict_waiting_time, try_except. rewrite Hraise. exact Hr.
Qed.

End EstimatorFacts.



Lemma predict_waiting_time_falls_back_witness :
  predict_body sample_patient_data sample_queue (world_with_history [])
  = (Raise TypeError, set_ticks 1 (world_with_history []))
  ∧ ∃ r w2,
      predict_waiting_time sample_patient_data sample_queue (world_with_history [])
      = (Ok r, w2)
      ∧ predicted_wait_time r = 14
      ∧ confidence_score r = lit 5 10
      ∧ length (insights r) = 1%nat.
Proof.
  assert (predict_body sample_patient_data sample_queue (world_with_history [])
          = (Raise TypeError, set_ticks 1 (world_with_history []))) as Hraise.
  { vm_compute. reflexivity. }
  split; [exact Hraise |].
  destruct (predict_waiting_time_falls_back sample_patient_data sample_queue
              (world_with_history [])) as (_ & _ & Hfallback).
  destruct (Hfallback _ _ Hraise) as (r & w2 & Hrun & _ & Hwait & Hconf & Hins).
  exists r, w2. split_and!; [exact Hrun | | exact Hconf | by rewrite Hins].
  rewrite Hwait. vm_compute. reflexivity.
Defined.



(** ** Queue order *)


Section QueueOrder.

Lemma priority_lt_spec p q :
  priority_lt p q = true
  ↔ Db.triage_score q < Db.triage_score p
    ∨ (Db.triage_score p = Db.triage_score q ∧ Db.queued_at p < Db.queued_at q).
Proof. unfold priority_lt. lia. Qed.

Lemma priority_le_spec p q :
  priority_le p q = true
  ↔ Db.triage_score q < Db.triage_score p
    ∨ (Db.triage_score p = Db.triage_score q ∧ Db.queued_at p ≤ Db.queued_at q).
Proof. unfold priority_le. lia. Qed.

Lemma priority_le_not_lt p q : priority_le p q = negb (priority_lt q p).
Proof.
  destruct (priority_le p q) eqn:Hle, (priority_lt q p) eqn:Hlt; try reflexivity.
  - apply priority_le_spec in Hle. apply priority_lt_spec in Hlt. lia.
  - apply not_true_iff_false in Hle, Hlt.
    rewrite priority_le_spec in Hle. rewrite priority_lt_spec in Hlt. lia.
Qed.

Lemma tied_spec p q :
  tied p q
  ↔ Db.triage_score p = Db.triage_score q ∧ Db.queued_at p = Db.queued_at q.
Proof.
  unfold tied. rewrite <- !not_true_iff_false, !priority_lt_spec. lia.
Qed.

Lemma priority_le_total p q : priority_le p q = false → priority_le q p = true.
Proof.
  rewrite <- not_true_iff_false, !priority_le_spec. lia.
Qed.

Lemma priority_le_trans p q r :
  priority_le p q = true → priority_le q r = true → priority_le p r = true.
Proof. rewrite !priority_le_spec. lia. Qed.


Lemma insert_by_priority_perm p rows : insert_by_priority p rows ≡ₚ p :: rows.
Proof.
  induction rows as [| q rows IH]; simpl; [reflexivity |].
  destruct (priority_le p q); [reflexivity |].
  rewrite IH. apply Permutation_swap.
Qed.

Lemma order_by_priority_perm rows : order_by_priority rows ≡ₚ rows.
Proof.
  induction rows as [| p rows IH]; simpl; [reflexivity |].
  rewrite insert_by_priority_perm. by rewrite IH.
Qed.

Lemma insert_by_priority_sorted p rows :
  StronglySorted served_no_later rows → StronglySorted served_no_later (insert_by_priority p rows).
Proof.
  induction 1 as [| q rows Hsorted IH Hall]; simpl.
  - repeat constructor.
  - destruct (priority_le p q) eqn:Hpq.
    + constructor; [by constructor |]. constructor; [exact Hpq |].
      eapply Forall_impl; [exact Hall |]. unfold served_no_later. intros r Hqr.
      by eapply priority_le_trans.
    + constructor; [exact IH |].
      rewrite insert_by_priority_perm. constructor; [| exact Hall].
      by apply priority_le_total.
Qed.

Lemma order_by_priority_sorted rows :
  StronglySorted served_no_later (order_by_priority rows).
Proof.
  induction rows as [| p rows IH]; simpl; [constructor |].
  by apply insert_by_priority_sorted.
Qed.

(** Sorting a list that is in order gives the list back. *)
Lemma order_by_priority_fixpoint rows :
  Sorted served_no_later rows → order_by_priority rows = rows.
Proof.
  induction 1 as [| p rows Hsorted IH Hhd]; simpl; [reflexivity |].
  rewrite IH. destruct Hhd as [| q rows Hpq]; simpl; [reflexivity |].
  by rewrite Hpq.
Qed.

Lemma order_by_priority_idempotent rows :
  order_by_priority (order_by_priority rows) = order_by_priority rows.
Proof.
  apply order_by_priority_fixpoint, StronglySorted_Sorted, order_by_priority_sorted.
Qed.

Lemma query_filter_all cond rows :
  Forall (fun p => cond p = true) rows → query_filter cond rows = rows.
Proof.
  unfold query_filter. induction 1 as [| p rows Hp _ IH]; simpl; [reflexivity |].
  by rewrite Hp, IH.
Qed.

Lemma patients_in_queue_uncalled rows :
  Forall (fun p => uncalled p = true) (patients_in_queue rows).
Proof.
  unfold patients_in_queue. rewrite order_by_priority_perm.
  unfold query_filter. apply Forall_forall. intros p Hp.
  apply list_elem_of_In, filter_In in Hp. tauto.
Qed.

Lemma patients_in_queue_idempotent rows :
  patients_in_queue (patients_in_queue rows) = patients_in_queue rows.
Proof.
  unfold patients_in_queue at 1.
  rewrite query_filter_all by apply patients_in_queue_uncalled.
  unfold patients_in_queue. apply order_by_priority_idempotent.
Qed.

(** C5. The order "higher score first, earlier arrival first" is a strict
    weak ordering: it is irreflexive and transitive, being tied is
    transitive, and two patients are tied exactly when they agree on
    score and arrival time, so that among equal scores arrival alone
    decides. The queue is the uncalled rows rearranged into that order,
    and ordering again what is already ordered changes nothing. *)
Theorem queue_order_strict_weak (rows : list Db.Patient) :
  (∀ p, priority_lt p p = false)
  ∧ (∀ p q r, priority_lt p q = true → priority_lt q r = true → priority_lt p r = true)
  ∧ (∀ p q r, tied p q → tied q r → tied p r)
  ∧ (∀ p q, tied p q
       ↔ Db.triage_score p = Db.triage_score q ∧ Db.queued_at p = Db.queued_at q)
  ∧ (∀ p q, priority_lt p q = true
       ↔ Db.triage_score q < Db.triage_score p
         ∨ (Db.triage_score p = Db.triage_score q ∧ Db.queued_at p < Db.queued_at q))
  ∧ (∀ p q, served_no_later p q ↔ priority_lt q p = false)
  ∧ patients_in_queue rows ≡ₚ query_filter uncalled rows
  ∧ StronglySorted served_no_later (patients_in_queue rows)
  ∧ patients_in_queue (patients_in_queue rows) = patients_in_queue rows
  ∧ order_by_priority (order_by_priority rows) = order_by_priority rows.
Proof.
  split_and!.
  - intros p. apply not_true_iff_false. rewrite priority_lt_spec. lia.
  - intros p q r. rewrite !priority_lt_spec. lia.
  - intros p q r. rewrite !tied_spec. lia.
  - apply tied_spec.
  - apply priority_lt_spec.
  - intros p q. unfold served_no_later. rewrite priority_le_not_lt.
    apply negb_true_iff.
  - apply order_by_priority_perm.
  - apply order_by_priority_sorted.
  - apply patients_in_queue_idempotent.
  - apply order_by_priority_idempotent.
Qed.

End QueueOrder.


Lemma queue_order_strict_weak_witness :
  priority_lt (sample_patient 2 9 5 30 false) (sample_patient 3 4 5 10 false) = true
  ∧ tied (sample_patient 1 4 5 20 false) (sample_patient 4 4 9 20 true)
  ∧ patients_in_queue
      [sample_patient 1 4 5 20 false; sample_patient 2 9 5 30 false;
       sample_patient 3 4 5 10 false; sample_patient 4 9 5 0 true]
    = [sample_patient 2 9 5 30 false; sample_patient 3 4 5 10 false;
       sample_patient 1 4 5 20 false].
Proof.
  destruct (queue_order_strict_weak
              [sample_patient 1 4 5 20 false; sample_patient 2 9 5 30 false;
               sample_patient 3 4 5 10 false; sample_patient 4 9 5 0 true])
    as (_ & Htrans & _ & Htied & _ & _ & _ & _ & Hidem & _).
  split_and!.
  - apply (Htrans _ (sample_patient 1 6 5 20 false)); reflexivity.
  - apply Htied. split; reflexivity.
  - rewrite <- Hidem. vm_compute. reflexivity.
Defined.

(** ** Notification scheduler *)



Section SchedulerFacts.
Context {F : Type} {PF : PyFloat F}.
Implicit Types (w : world (F:=F)) (ps : list Db.Patient).

Lemma prefix_append (s t : string) : String.prefix s (s +:+ t) = true.
Proof.
  induction s as [| c s IH].
  - change ("" +:+ t) with t. by destruct t.
  - change (String c s +:+ t) with (String c (s +:+ t)).
    cbn [String.prefix]. destruct (ascii_dec c c); [exact IH | contradiction].
Qed.

Lemma is_notify_job_id (n : Z) : is_notify_job (job_id n) = true.
Proof. apply prefix_append. Qed.

Lemma job_id_inj (n m : Z) : job_id n = job_id m → n = m.
Proof.
  unfold job_id. intros Heq. apply (inj (String.app "notify_")) in Heq.
  by apply (inj pretty) in Heq.
Qed.

Lemma job_ids_are_notify ps k : k ∈ job_ids ps → is_notify_job k = true.
Proof.
  unfold job_ids. intros Hk. apply list_elem_of_fmap in Hk as (p & -> & _).
  apply is_notify_job_id.
Qed.

(** One turn of the loop reads the clock twice, a third time when it
    clamps, and registers one job. *)
Lemma schedule_notification_run (p : Db.Patient) w :
  let t := clock w (ticks w) in
  let t' := clock w (S (ticks w)) in
  let t'' := clock w (S (S (ticks w))) in
  schedule_notification p w
  = (Ok tt,
     set_jobs (<[job_id (Db.id p) := job_for p (fire_time t t' t'' (Db.eta p))]> (jobs w))
       (set_ticks (if t + timedelta_minutes (Db.eta p - 5) <? t'
                   then S (S (S (ticks w))) else S (S (ticks w))) w)).
Proof.
  intros t t' t''. unfold schedule_notification, fire_time. monad_unfold. simpl.
  fold t t' t''.
  destruct (t + timedelta_minutes (Db.eta p - 5) <? t'); reflexivity.
Qed.

Lemma window_loop_spec ps : ∀ w,
  ∃ w', for_each ps schedule_notification w = (Ok tt, w')
    ∧ patients w' = patients w
    ∧ clock w' = clock w
    ∧ historical_data w' = historical_data w
    ∧ network_up w' = network_up w
    ∧ (ticks w ≤ ticks w')%nat
    ∧ (∀ k, k ∉ job_ids ps → jobs w' !! k = jobs w !! k)
    ∧ (∀ k, k ∈ job_ids ps →
         ∃ p n, p ∈ ps ∧ k = job_id (Db.id p) ∧ (ticks w ≤ n)%nat
           ∧ jobs w' !! k
             = Some (job_for p (fire_time (clock w n) (clock w (S n))
                                          (clock w (S (S n))) (Db.eta p)))).
Proof.
  induction ps as [| p ps IH]; intros w.
  - exists w. split_and!; try done. intros k Hk. by apply elem_of_nil in Hk.
  - simpl. unfold bind. rewrite schedule_notification_run.
    set (w1 := set_jobs _ _).
    destruct (IH w1) as (w' & Hrun & Hpat & Hclock & Hhist & Hnet & Hticks & Hout & Hin).
    exists w'. rewrite Hrun.
    assert (ticks w ≤ ticks w1)%nat as Hw1.
    { subst w1. simpl. destruct (_ <? _); lia. }
    split_and!; try done; try lia.
    + intros k Hk. apply not_elem_of_cons in Hk as [Hne Hk].
      rewrite (Hout k Hk). subst w1. simpl. by rewrite lookup_insert_ne.
    + intros k Hk. destruct (decide (k ∈ job_ids ps)) as [Hps|Hps].
      * destruct (Hin k Hps) as (q & n & Hq & -> & Hn & Hjob).
        exists q, n. split_and!; [by right | done | lia | exact Hjob].
      * apply elem_of_cons in Hk as [->|Hk]; [| contradiction].
        exists p, (ticks w). split_and!; [by left | done | lia |].
        rewrite (Hout _ Hps). subst w1. simpl. by rewrite lookup_insert_eq.
Qed.

(** With a clock that does not move, the loop registers the jobs one
    after the other, each with the fire time of that one instant. *)
Lemma window_loop_frozen (now : datetime) ps : ∀ w,
  frozen_clock now w →
  ∃ w', for_each ps schedule_notification w = (Ok tt, w')
    ∧ clock w' = clock w
    ∧ jobs w'
      = foldl (fun js p =>
                 <[job_id (Db.id p) := job_for p (fire_time now now now (Db.eta p))]> js)
              (jobs w) ps.
Proof.
  induction ps as [| p ps IH]; intros w Hfrozen.
  - exists w. done.
  - simpl. unfold bind. rewrite schedule_notification_run. rewrite !Hfrozen.
    set (w1 := set_jobs _ _).
    destruct (IH w1) as (w' & Hrun & Hclock & Hjobs); [exact Hfrozen |].
    exists w'. rewrite Hrun. split_and!; done.
Qed.

Lemma filter_foldl_notify (mk : Db.Patient → job) ps (js : gmap string job) :
  filter (fun kv => is_notify_job kv.1 = false)
         (foldl (fun js p => <[job_id (Db.id p) := mk p]> js) js ps)
  = filter (fun kv => is_notify_job kv.1 = false) js.
Proof.
  revert js. induction ps as [| p ps IH]; intros js; simpl; [reflexivity |].
  rewrite IH. rewrite map_filter_insert_False by (simpl; by rewrite is_notify_job_id).
  rewrite map_filter_delete. apply delete_id.
  apply map_lookup_filter_None. right. intros j _. simpl. by rewrite is_notify_job_id.
Qed.

Lemma filter_filter_notify (js : gmap string job) :
  filter (fun kv : string * job => is_notify_job kv.1 = false)
         (filter (fun kv : string * job => is_notify_job kv.1 = false) js)
  = filter (fun kv : string * job => is_notify_job kv.1 = false) js.
Proof. apply map_filter_filter_l. intros k j _ Hk. exact Hk. Qed.

Lemma lookup_filter_other_job (js : gmap string job) (k : string) :
  is_notify_job k = false →
  filter (fun kv : string * job => is_notify_job kv.1 = false) js !! k = js !! k.
Proof.
  intros Hk. apply option_eq. intros j. rewrite map_lookup_filter_Some. simpl. tauto.
Qed.

Lemma lookup_filter_notify_job (js : gmap string job) (k : string) :
  is_notify_job k = true →
  filter (fun kv : string * job => is_notify_job kv.1 = false) js !! k = None.
Proof.
  intros Hk. apply map_lookup_filter_None. right. intros j _. simpl. congruence.
Qed.

Lemma reschedule_unfold w :
  reschedule_queue_notifications w
  = for_each (notification_window w) schedule_notification
      (set_jobs (filter (fun kv => is_notify_job kv.1 = false) (jobs w)) w).
Proof. reflexivity. Qed.

Lemma reschedule_spec w :
  ∃ w', reschedule_queue_notifications w = (Ok tt, w')
    ∧ patients w' = patients w
    ∧ clock w' = clock w
    ∧ historical_data w' = historical_data w
    ∧ network_up w' = network_up w
    ∧ (ticks w ≤ ticks w')%nat
    ∧ (∀ k, is_notify_job k = false → jobs w' !! k = jobs w !! k)
    ∧ (∀ k, is_notify_job k = true → k ∉ job_ids (notification_window w) →
         jobs w' !! k = None)
    ∧ (∀ k, k ∈ job_ids (notification_window w) →
         ∃ p n, p ∈ notification_window w ∧ k = job_id (Db.id p) ∧ (ticks w ≤ n)%nat
           ∧ jobs w' !! k
             = Some (job_for p (fire_time (clock w n) (clock w (S n))
                                          (clock w (S (S n))) (Db.eta p)))).
Proof.
  rewrite reschedule_unfold.
  set (w0 := set_jobs _ w).
  destruct (window_loop_spec (notification_window w) w0)
    as (w' & Hrun & Hpat & Hclock & Hhist & Hnet & Hticks & Hout & Hin).
  exists w'. split_and!; try done.
  - intros k Hk. rewrite Hout.
    + subst w0. simpl. by apply lookup_filter_other_job.
    + intros Hin'. apply job_ids_are_notify in Hin'. congruence.
  - intros k Hk Hnot. rewrite (Hout k Hnot). subst w0. simpl.
    by apply lookup_filter_notify_job.
Qed.

Lemma pending_after_reschedule w w' :
  reschedule_queue_notifications w = (Ok tt, w') →
  ∀ k, is_Some (jobs w' !! k)
       ↔ (is_notify_job k = false ∧ is_Some (jobs w !! k))
         ∨ k ∈ job_ids (notification_window w).
Proof.
  intros Hrun k.
  destruct (reschedule_spec w) as (w'' & Hrun' & _ & _ & _ & _ & _ & Hother & Hgone & Hin).
  rewrite Hrun in Hrun'. injection Hrun' as <-.
  destruct (decide (k ∈ job_ids (notification_window w))) as [Hk|Hk].
  - destruct (Hin k Hk) as (p & n & _ & _ & _ & Hjob). rewrite Hjob.
    split; [by right | by eauto].
  - destruct (is_notify_job k) eqn:Hnotify.
    + rewrite (Hgone k Hnotify Hk). split; [by intros [? ?] |].
      intros [[? _]|?]; [congruence | contradiction].
    + rewrite (Hother k Hnotify). split; [by left |].
      intros [[_ ?]|?]; [done | contradiction].
Qed.

Lemma reschedule_frozen (now : datetime) w :
  frozen_clock now w →
  ∃ w', reschedule_queue_notifications w = (Ok tt, w')
    ∧ clock w' = clock w
    ∧ patients w' = patients w
    ∧ jobs w'
      = foldl (fun js p =>
                 <[job_id (Db.id p) := job_for p (fire_time now now now (Db.eta p))]> js)
              (filter (fun kv => is_notify_job kv.1 = false) (jobs w))
              (notification_window w).
Proof.
  intros Hfrozen.
  destruct (reschedule_spec w) as (w' & Hrun & Hpat & _).
  exists w'. split; [exact Hrun |].
  rewrite reschedule_unfold in Hrun.
  edestruct (window_loop_frozen now (notification_window w)) as (w'' & Hrun' & Hclock & Hjobs);
    [| rewrite Hrun in Hrun'; injection Hrun' as <-; split_and!;
       [exact Hclock | exact Hpat | exact Hjobs]].
  exact Hfrozen.
Qed.

Lemma length_notification_window w : (length (notification_window w) ≤ 3)%nat.
Proof. unfold notification_window, NOTIFICATION_WINDOW. rewrite length_take. lia. Qed.

(** C3, as the code has it. Two resyncs in a row over an unchanged table
    both succeed and leave the table alone; after the second the job
    store has the same job ids as after the first, the notification jobs
    being one per patient of the window of at most three, under job ids
    that tell the patients apart; each of these
    jobs has been registered anew, its fire time computed from clock
    readings of the second call; the two job stores are equal when the
    clock shows the same instant at every reading. *)
Theorem resync_twice_rebuilds w :
  let w1 := state_after reschedule_queue_notifications w in
  let w2 := state_after reschedule_queue_notifications w1 in
  result_of reschedule_queue_notifications w = Ok tt
  ∧ result_of reschedule_queue_notifications w1 = Ok tt
  ∧ patients w1 = patients w ∧ patients w2 = patients w
  ∧ dom (jobs w2) = dom (jobs w1)
  ∧ (length (notification_window w) ≤ 3)%nat
  ∧ (∀ k, is_notify_job k = true →
       (is_Some (jobs w2 !! k) ↔ k ∈ job_ids (notification_window w)))
  ∧ (∀ k, k ∈ job_ids (notification_window w) →
       ∃ p n, p ∈ notification_window w ∧ k = job_id (Db.id p) ∧ (ticks w1 ≤ n)%nat
         ∧ jobs w2 !! k
           = Some (job_for p (fire_time (clock w n) (clock w (S n))
                                        (clock w (S (S n))) (Db.eta p))))
  ∧ (∀ now, frozen_clock now w → jobs w2 = jobs w1)
  ∧ (∀ n m, job_id n = job_id m → n = m).
Proof.
  intros w1 w2. subst w1 w2. unfold state_after, result_of.
  destruct (reschedule_spec w) as (w1 & Hrun1 & Hpat1 & Hclock1 & _ & _ & _ & _ & _ & _).
  rewrite Hrun1. simpl.
  destruct (reschedule_spec w1) as (w2 & Hrun2 & Hpat2 & _ & _ & _ & _ & _ & _ & Hin2).
  rewrite Hrun2. simpl.
  assert (notification_window w1 = notification_window w) as Hwin.
  { unfold notification_window. by rewrite Hpat1. }
  pose proof (pending_after_reschedule w w1 Hrun1) as Hdom1.
  pose proof (pending_after_reschedule w1 w2 Hrun2) as Hdom2.
  rewrite Hwin in Hdom2, Hin2.
  split_and!; try done.
  - congruence.
  - apply set_eq. intros k. rewrite !elem_of_dom, Hdom2, !Hdom1. tauto.
  - apply length_notification_window.
  - intros k Hk. rewrite Hdom2. split; [| by right].
    intros [[? _]|?]; [congruence | done].
  - intros k Hk. destruct (Hin2 k Hk) as (p & n & Hp & -> & Hn & Hjob).
    exists p, n. rewrite Hclock1 in Hjob. done.
  - intros now Hfrozen.
    destruct (reschedule_frozen now w Hfrozen) as (w1' & Hrun1' & Hclock1' & _ & Hjobs1).
    rewrite Hrun1 in Hrun1'. injection Hrun1' as <-.
    assert (frozen_clock now w1) as Hfrozen1.
    { intros n. rewrite Hclock1. apply Hfrozen. }
    destruct (reschedule_frozen now w1 Hfrozen1) as (w2' & Hrun2' & _ & _ & Hjobs2).
    rewrite Hrun2 in Hrun2'. injection Hrun2' as <-.
    rewrite Hjobs2, Hwin, Hjobs1.
    by rewrite filter_foldl_notify, filter_filter_notify.
  - apply job_id_inj.
Qed.

Lemma fire_time_on_time (now : datetime) : fire_time now now now 5 = now.
Proof.
  unfold fire_time, timedelta_minutes. simpl.
  rewrite Z.add_0_r, Z.ltb_irrefl. reflexivity.
Qed.

(** The job is never given a time before the reading it was compared
    with, when the clock does not run backwards. *)
Lemma fire_time_not_before (t t' t'' : datetime) (eta : Z) :
  t' ≤ t'' → t' ≤ fire_time t t' t'' eta.
Proof.
  intros Hmono. unfold fire_time, timedelta_seconds.
  destruct (Z.ltb_spec (t + timedelta_minutes (eta - 5)) t'); lia.
Qed.

(** C4, at the input that breaks it. One uncalled patient with an eta of
    five minutes and a clock that shows the same instant [now] at the two
    readings of the loop: the job is registered to fire at [now], which is
    not in the future and is not [now] plus thirty seconds. *)
Theorem eta_five_fires_at_now (now : datetime) :
  let p := sample_patient 1 5 5 0 false in
  let w := world_of (F:=F) (fun _ => now) [p] in
  notification_window w = [p]
  ∧ jobs (state_after reschedule_queue_notifications w) !! job_id 1
    = Some (job_for p now)
  ∧ ¬ (now < now)
  ∧ now ≠ now + timedelta_seconds 30.
Proof.
  intros p w. split; [reflexivity |]. split; [| unfold timedelta_seconds; lia].
  unfold state_after.
  destruct (reschedule_frozen now w) as (w' & Hrun & _ & _ & Hjobs); [by intros n |].
  rewrite Hrun. simpl. rewrite Hjobs.
  change (notification_window w) with [p]. simpl.
  rewrite lookup_insert_eq. change (Db.eta p) with 5.
  by rewrite fire_time_on_time.
Qed.

End SchedulerFacts.


(** C3 as stated fails: with a clock that moves, the second resync gives
    the job of an unchanged patient another fire time. *)
Lemma resync_twice_churns :
  let w := world_of (F:=Q) ticking_clock [sample_patient 1 5 10 0 false] in
  let w1 := state_after reschedule_queue_notifications w in
  let w2 := state_after reschedule_queue_notifications w1 in
  patients w1 = patients w ∧ patients w2 = patients w ∧ ¬ no_job_churn w1 w2.
Proof.
  intros w w1 w2.
  assert (run_date <$> jobs w1 !! job_id 1 = Some 300000000) as H1
    by (vm_compute; reflexivity).
  assert (run_date <$> jobs w2 !! job_id 1 = Some 302000000) as H2
    by (vm_compute; reflexivity).
  split_and!; [reflexivity | reflexivity |].
  intros Hsame.
  apply fmap_Some in H1 as (j1 & Hj1 & Hd1), H2 as (j2 & Hj2 & Hd2).
  specialize (Hsame _ _ _ Hj1 Hj2). congruence.
Qed.

Lemma resync_twice_rebuilds_witness :
  let w := world_of (F:=Q) (fun _ => 7)
             [sample_patient 1 5 10 0 false; sample_patient 2 9 3 5 false] in
  let w1 := state_after reschedule_queue_notifications w in
  let w2 := state_after reschedule_queue_notifications w1 in
  jobs w2 = jobs w1 ∧ is_Some (jobs w2 !! job_id 1).
Proof.
  intros w w1 w2.
  destruct (resync_twice_rebuilds w) as (_ & _ & _ & _ & _ & _ & Hpending & _ & Hfrozen & _).
  split.
  - apply (Hfrozen 7). intros n. reflexivity.
  - apply Hpending; [vm_compute; reflexivity |].
    apply list_elem_of_In. vm_compute. tauto.
Defined.

(** ** Admission *)



Section FrameFacts.
Context {F : Type} {PF : PyFloat F}.
Implicit Types (w : world (F:=F)).

Lemma set_ticks_same w : set_ticks (ticks w) w = w.
Proof. by destruct w. Qed.

Lemma ticks_only_ret {A} (a : A) : ticks_only (F:=F) (mret a).
Proof. intros w. exists (ticks w). simpl. symmetry. apply set_ticks_same. Qed.

Lemma ticks_only_raise {A} (e : exn) : ticks_only (F:=F) (A:=A) (raise e).
Proof. intros w. exists (ticks w). simpl. symmetry. apply set_ticks_same. Qed.

Lemma ticks_only_lift {A} (r : result A) : ticks_only (F:=F) (lift_result r).
Proof. intros w. exists (ticks w). simpl. symmetry. apply set_ticks_same. Qed.

Lemma ticks_only_get : ticks_only (F:=F) get.
Proof. intros w. exists (ticks w). simpl. symmetry. apply set_ticks_same. Qed.

Lemma ticks_only_now : ticks_only (F:=F) datetime_now.
Proof. intros w. by exists (S (ticks w)). Qed.

Lemma ticks_only_bind {A B} (m : M world A) (k : A → M world B) :
  ticks_only m → (∀ a, ticks_only (k a)) → ticks_only (F:=F) (m ≫= k).
Proof.
  intros Hm Hk w. unfold mbind, M_bind, bind.
  destruct (Hm w) as [n Hn]. destruct (m w) as [[a|e] w1]; simpl in Hn; subst w1.
  - destruct (Hk a (set_ticks n w)) as [n' Hn']. exists n'. by rewrite Hn'.
  - by exists n.
Qed.

Lemma ticks_only_try {A} (m : M world A) (h : exn → M world A) :
  ticks_only m → (∀ e, ticks_only (h e)) → ticks_only (F:=F) (try_except m h).
Proof.
  intros Hm Hh w. unfold try_except.
  destruct (Hm w) as [n Hn]. destruct (m w) as [[a|e] w1]; simpl in Hn; subst w1.
  - by exists n.
  - destruct (Hh e (set_ticks n w)) as [n' Hn']. exists n'. by rewrite Hn'.
Qed.

Ltac frame :=
  repeat first
    [ apply ticks_only_ret | apply ticks_only_raise | apply ticks_only_lift
    | apply ticks_only_get | apply ticks_only_now
    | apply ticks_only_bind; [| intros ?]
    | apply ticks_only_try; [| intros ?]
    | match goal with
      | |- ticks_only (if ?b then _ else _) => destruct b
      end ].

Lemma predict_waiting_time_ticks_only pd q :
  ticks_only (F:=F) (predict_waiting_time pd q).
Proof.
  unfold predict_waiting_time, predict_body, _extract_features, _apply_ai_adjustments,
    adaptive_adjustment, _calculate_recent_accuracy, _calculate_confidence,
    _fallback_prediction.
  frame.
Qed.

Lemma bind_ok_inv {A B} (m : M world A) (k : A → M world B) w (b : B) w' :
  (m ≫= k) w = (Ok b, w') → ∃ a w1, m w = (Ok a, w1) ∧ k a w1 = (Ok b, w').
Proof.
  unfold mbind, M_bind, bind. destruct (m w) as [[a|e] w1]; [eauto | discriminate].
Qed.

Lemma predict_body_at_least_one pd q w r w' :
  predict_body pd q w = (Ok r, w') → 1 ≤ predicted_wait_time r.
Proof.
  unfold predict_body. intros Hrun.
  repeat (apply bind_ok_inv in Hrun as (? & ? & _ & Hrun)).
  injection Hrun as <- _. simpl. lia.
Qed.

(** The estimator always answers, with at least one minute, and only
    the clock has moved. *)
Lemma predict_waiting_time_answers pd q w :
  ∃ r n, predict_waiting_time pd q w = (Ok r, set_ticks n w)
    ∧ 1 ≤ predicted_wait_time r.
Proof.
  destruct (predict_waiting_time_ticks_only pd q w) as [n Hn].
  destruct (predict_waiting_time pd q w) as [res w'] eqn:Hrun. simpl in Hn. subst w'.
  unfold predict_waiting_time, try_except in Hrun.
  destruct (predict_body pd q w) as [[r|e] w1] eqn:Hbody.
  - injection Hrun as <- _. exists r, n. split; [reflexivity |].
    by eapply predict_body_at_least_one.
  - unfold _fallback_prediction in Hrun. monad_unfold.
    injection Hrun as <- _. eexists _, n. split; [reflexivity |]. simpl. lia.
Qed.

Lemma reschedule_keeps_patients w :
  patients (reschedule_queue_notifications w).2 = patients w.
Proof.
  destruct (reschedule_spec w) as (w' & Hrun & Hpat & _). by rewrite Hrun.
Qed.

(** What the tail of both handlers, the broadcast followed by the
    resync, leaves of the table. *)
Lemma notify_tail_keeps_patients {A} (a : A) w :
  patients ((broadcast_queue_update;; reschedule_queue_notifications;; mret a) w).2
  = patients w.
Proof.
  unfold mbind, M_bind, bind. unfold broadcast_queue_update at 1. monad_unfold.
  destruct (network_up w); simpl; [| reflexivity].
  pose proof (reschedule_keeps_patients w) as Hpat.
  destruct (reschedule_queue_notifications w) as [[[]|e] w']; exact Hpat.
Qed.

Lemma create_patient_existing (patient : PatientCreate.t) w (old : Db.Patient) :
  query_first (rows_of_user (PatientCreate.user_id patient) (patients w)) = Some old →
  ∃ eta, 1 ≤ eta
    ∧ patients (state_after (create_patient patient) w)
      = map (fun p => if Db.id p =? Db.id old then readmitted old patient eta else p)
            (patients w).
Proof.
  unfold rows_of_user. intros Hold. unfold state_after, create_patient.
  unfold mbind at 1, M_bind, bind at 1, get. rewrite Hold.
  unfold mbind at 1, M_bind, bind at 1.
  match goal with
  | |- context [predict_waiting_time ?pd ?q w] =>
      destruct (predict_waiting_time_answers pd q w) as (r & n & Hrun & Heta);
      rewrite Hrun
  end.
  exists (predicted_wait_time r). split; [exact Heta |].
  unfold mbind at 1, M_bind, bind at 1.
  unfold mbind at 1, M_bind, bind at 1, modify, mret, M_ret, ret.
  match goal with
  | |- context [mbind ?k broadcast_queue_update ?w1] =>
      pose proof (notify_tail_keeps_patients
                    (Db.id old, predicted_wait_time r,
                     Triage.get_severity_level
                       (Triage.get_triage_score (PatientCreate.symptoms patient)
                          (PatientCreate.age patient))) w1) as Htail
  end.
  etransitivity; [exact Htail | reflexivity].
Qed.

Lemma create_patient_new (patient : PatientCreate.t) w :
  query_first (rows_of_user (PatientCreate.user_id patient) (patients w)) = None →
  ∃ eta now, 1 ≤ eta
    ∧ patients (state_after (create_patient patient) w)
      = patients w ++ [admitted (next_id (patients w)) patient eta now].
Proof.
  unfold rows_of_user. intros Hnone. unfold state_after, create_patient.
  unfold mbind at 1, M_bind, bind at 1, get. rewrite Hnone.
  unfold mbind at 1, M_bind, bind at 1.
  match goal with
  | |- context [predict_waiting_time ?pd ?q w] =>
      destruct (predict_waiting_time_answers pd q w) as (r & n & Hrun & Heta);
      rewrite Hrun
  end.
  exists (predicted_wait_time r), (clock w n). split; [exact Heta |].
  unfold mbind at 1, M_bind, bind at 1.
  unfold mbind at 1 2 3, M_bind, bind at 1 2 3, datetime_now, get, modify, mret, M_ret, ret.
  cbn [fst snd].
  match goal with
  | |- context [mbind ?k broadcast_queue_update ?w1] =>
      pose proof (notify_tail_keeps_patients
                    (next_id (patients w), predicted_wait_time r,
                     Triage.get_severity_level
                       (Triage.get_triage_score (PatientCreate.symptoms patient)
                          (PatientCreate.age patient))) w1) as Htail
  end.
  etransitivity; [exact Htail | reflexivity].
Qed.

End FrameFacts.

Section TableFacts.
Implicit Types (rows : list Db.Patient) (p old : Db.Patient).

Lemma first_row_of_user (u : Z) rows old :
  NoDup (map Db.user_id rows) → old ∈ rows → Db.user_id old = u →
  query_first (rows_of_user u rows) = Some old.
Proof.
  unfold query_first, rows_of_user, query_filter.
  induction rows as [| p rows IH]; intros Hnodup Hold Hu.
  - by apply elem_of_nil in Hold.
  - simpl in Hnodup. apply NoDup_cons in Hnodup as [Hfresh Hnodup]. simpl.
    apply elem_of_cons in Hold as [->|Hold].
    + assert ((Db.user_id p =? u) = true) as -> by lia. reflexivity.
    + destruct (Z.eqb_spec (Db.user_id p) u) as [Hp|_]; [| by apply IH].
      exfalso. apply Hfresh. rewrite Hp, <- Hu.
      apply list_elem_of_fmap. by exists old.
Qed.

Lemma no_row_of_user (u : Z) rows :
  query_first (rows_of_user u rows) = None → u ∉ map Db.user_id rows.
Proof.
  unfold query_first, rows_of_user, query_filter.
  induction rows as [| p rows IH]; simpl; intros Hnone; [apply not_elem_of_nil |].
  destruct (Z.eqb_spec (Db.user_id p) u) as [?|Hne]; [discriminate |].
  apply not_elem_of_cons. split; [congruence | by apply IH].
Qed.

Lemma next_id_fresh rows : next_id rows ∉ map Db.id rows.
Proof.
  assert (∀ n, n ∈ map Db.id rows → n < next_id rows) as Hlt.
  { unfold next_id. induction rows as [| p rows IH]; simpl; intros n Hn.
    - by apply elem_of_nil in Hn.
    - apply elem_of_cons in Hn as [->|Hn]; [lia |]. specialize (IH n Hn). lia. }
  intros Hin. specialize (Hlt _ Hin). lia.
Qed.

Lemma same_id_same_row rows p old :
  NoDup (map Db.id rows) → p ∈ rows → old ∈ rows → Db.id p = Db.id old → p = old.
Proof.
  induction rows as [| r rows IH]; intros Hnodup Hp Hold Hid.
  - by apply elem_of_nil in Hp.
  - simpl in Hnodup. apply NoDup_cons in Hnodup as [Hfresh Hnodup].
    apply elem_of_cons in Hp as [->|Hp], Hold as [->|Hold]; [done | | | by apply IH].
    + exfalso. apply Hfresh. rewrite Hid. apply list_elem_of_fmap. by exists old.
    + exfalso. apply Hfresh. rewrite <- Hid. apply list_elem_of_fmap. by exists p.
Qed.

(** Writing over the row [old] a row that agrees with it on a column
    leaves the column as it was. *)
Lemma overwrite_keeps_column {B} (col : Db.Patient → B) rows old (new : Db.Patient) :
  NoDup (map Db.id rows) → old ∈ rows → col new = col old →
  map col (map (fun p => if Db.id p =? Db.id old then new else p) rows) = map col rows.
Proof.
  intros Hnodup Hold Hcol. rewrite map_map. apply map_ext_in. intros p Hp.
  apply list_elem_of_In in Hp.
  destruct (Z.eqb_spec (Db.id p) (Db.id old)) as [Hid|_]; [| reflexivity].
  by rewrite (same_id_same_row rows p old Hnodup Hp Hold Hid).
Qed.

End TableFacts.

Section Admission.
Context {F : Type} {PF : PyFloat F}.
Implicit Types (w : world (F:=F)).


End Admission.




(** ** More on the severity scorer *)

Lemma py_in_true x l : py_in x l = true ↔ x ∈ l.
Proof.
  unfold py_in. rewrite existsb_exists. split.
  - intros (y & Hy & Heq). apply String.eqb_eq in Heq. subst.
    by apply list_elem_of_In.
  - intros Hx. exists x. split; [by apply list_elem_of_In | apply String.eqb_refl].
Qed.

Lemma py_in_same_members x l1 l2 :
  (x ∈ l1 ↔ x ∈ l2) → py_in x l1 = py_in x l2.
Proof.
  intros Hiff. destruct (py_in x l1) eqn:H1, (py_in x l2) eqn:H2; try reflexivity.
  - apply py_in_true, Hiff, py_in_true in H1. congruence.
  - apply py_in_true, Hiff, py_in_true in H2. congruence.
Qed.

(** X1. The scorer reads the symptoms as a set: two lists with the same
    normalised symptoms, in whatever order and however often repeated,
    get the same score. *)
Theorem get_triage_score_set_semantics (symptoms1 symptoms2 : list string) (age : Z) :
  (∀ s, s ∈ map normalize_symptom symptoms1 ↔ s ∈ map normalize_symptom symptoms2) →
  get_triage_score symptoms1 age = get_triage_score symptoms2 age.
Proof.
  intros Hsame. unfold get_triage_score. apply score_normalized_ext.
  intros k _. apply py_in_same_members, Hsame.
Qed.

Lemma get_triage_score_set_semantics_witness :
  get_triage_score ["fever"; "Headache"] 30
  = get_triage_score ["HEADACHE "; "fever"; " Fever"] 30.
Proof.
  apply get_triage_score_set_semantics. intros s. simpl.
  change (normalize_symptom "fever") with "fever".
  change (normalize_symptom "Headache") with "headache".
  change (normalize_symptom "HEADACHE ") with "headache".
  change (normalize_symptom " Fever") with "fever".
  rewrite !elem_of_cons, !elem_of_nil. tauto.
Defined.

Section ScoreMono.
Variables n1 n2 : list string.
Hypothesis more_known : ∀ k, py_in k n1 = true → py_in k n2 = true.

Lemma tier_scores_mono (tier : list (string * Z)) (score1 score2 : Z) :
  Forall (fun e => 0 ≤ snd e) tier → score1 ≤ score2 →
  fold_left (fun score entry =>
               if py_in (fst entry) n1 then score + snd entry else score) tier score1
  ≤ fold_left (fun score entry =>
               if py_in (fst entry) n2 then score + snd entry else score) tier score2.
Proof using more_known.
  intros Htier. revert score1 score2.
  induction Htier as [| e tier He _ IH]; intros score1 score2 Hle; simpl; [exact Hle |].
  apply IH. destruct (py_in (fst e) n1) eqn:H1.
  - rewrite (more_known _ H1). lia.
  - destruct (py_in (fst e) n2); lia.
Qed.

Lemma add_symptom_scores_mono (score1 score2 : Z) :
  score1 ≤ score2 → add_symptom_scores n1 score1 ≤ add_symptom_scores n2 score2.
Proof using more_known.
  unfold add_symptom_scores.
  assert (Forall (fun cat => Forall (fun e => 0 ≤ snd e) (snd cat)) SYMPTOM_SEVERITY)
    as Htable.
  { unfold SYMPTOM_SEVERITY. repeat (constructor; simpl); lia. }
  revert score1 score2.
  induction Htable as [| cat table Hcat _ IH]; intros score1 score2 Hle; simpl;
    [exact Hle |].
  apply IH. by apply tier_scores_mono.
Qed.

Lemma score_normalized_mono age :
  score_normalized n1 age ≤ score_normalized n2 age.
Proof using more_known.
  unfold score_normalized.
  set (a := if age <? 1 then 0 + 5 else if age <? 18 then 0 + 2
            else if age >=? 65 then 0 + 4 else 0).
  pose proof (add_symptom_scores_mono a a (Z.le_refl a)) as Hadd.
  set (s1 := add_symptom_scores n1 a) in *. set (s2 := add_symptom_scores n2 a) in *.
  assert (∀ k, py_in k n1 = true → py_in k n2 = true) as Hk by exact more_known.
  destruct (py_in "chest pain" n1) eqn:Ha1; [rewrite (Hk _ Ha1) |];
  destruct (py_in "shortness of breath" n1) eqn:Hb1; try rewrite (Hk _ Hb1);
  destruct (py_in "fever" n1) eqn:Hc1; try rewrite (Hk _ Hc1);
  destruct (py_in "headache" n1) eqn:Hd1; try rewrite (Hk _ Hd1);
  destruct (py_in "severe pain" n1) eqn:He1; try rewrite (Hk _ He1);
  simpl;
  repeat match goal with
         | |- context [py_in ?k n2] => destruct (py_in k n2)
         end;
  simpl; destruct ((age <? 5) || (age >? 75))%bool; lia.
Qed.

End ScoreMono.

(** X2. A symptom more never lowers the score: when every symptom of one
    list occurs, in normal form, in another, the other scores at least
    as much. *)
Theorem get_triage_score_monotone (symptoms1 symptoms2 : list string) (age : Z) :
  (∀ s, s ∈ map normalize_symptom symptoms1 → s ∈ map normalize_symptom symptoms2) →
  get_triage_score symptoms1 age ≤ get_triage_score symptoms2 age.
Proof.
  intros Hsub. unfold get_triage_score. apply score_normalized_mono.
  intros k Hk. apply py_in_true. apply py_in_true in Hk. by apply Hsub.
Qed.

Lemma get_triage_score_monotone_witness :
  get_triage_score ["fever"] 30 ≤ get_triage_score ["headache"; "Fever "] 30.
Proof.
  apply get_triage_score_monotone. intros s. simpl.
  change (normalize_symptom "fever") with "fever".
  change (normalize_symptom "headache") with "headache".
  change (normalize_symptom "Fever ") with "fever".
  rewrite !elem_of_cons, !elem_of_nil. tauto.
Defined.

Lemma lower_ascii_idempotent (c : ascii) : lower_ascii (lower_ascii c) = lower_ascii c.
Proof. destruct c as [[] [] [] [] [] [] [] []]; reflexivity. Qed.

Lemma isspace_lower_ascii (c : ascii) : isspace (lower_ascii c) = isspace c.
Proof. destruct c as [[] [] [] [] [] [] [] []]; reflexivity. Qed.

Lemma lower_idempotent (s : string) : lower (lower s) = lower s.
Proof.
  induction s as [| c s IH]; simpl; [reflexivity |].
  by rewrite lower_ascii_idempotent, IH.
Qed.

Lemma lower_lstrip (s : string) : lower (lstrip s) = lstrip (lower s).
Proof.
  induction s as [| c s IH]; simpl; [reflexivity |].
  rewrite isspace_lower_ascii. destruct (isspace c); [exact IH | reflexivity].
Qed.

Lemma lower_rstrip (s : string) : lower (rstrip s) = rstrip (lower s).
Proof.
  induction s as [| c s IH]; simpl; [reflexivity |].
  rewrite <- IH, isspace_lower_ascii.
  destruct (rstrip s); simpl; [by destruct (isspace c) | reflexivity].
Qed.

Lemma lower_strip (s : string) : lower (strip s) = strip (lower s).
Proof. unfold strip. by rewrite lower_rstrip, lower_lstrip. Qed.

Lemma rstrip_idempotent (s : string) : rstrip (rstrip s) = rstrip s.
Proof.
  induction s as [| c s IH]; simpl; [reflexivity |].
  destruct (rstrip s) as [| d r] eqn:Hr.
  - destruct (isspace c) eqn:Hc; simpl; [reflexivity | by rewrite Hc].
  - change (rstrip (String c (String d r)))
      with (match rstrip (String d r) with
            | EmptyString => if isspace c then EmptyString else String c EmptyString
            | r' => String c r'
            end).
    by rewrite IH.
Qed.

(** What [lstrip] leaves is empty or starts with a character that is not
    a space. *)
Lemma lstrip_head (s : string) :
  lstrip s = EmptyString ∨ ∃ c t, lstrip s = String c t ∧ isspace c = false.
Proof.
  induction s as [| c s IH]; simpl; [by left |].
  destruct (isspace c) eqn:Hc; [exact IH | right; eauto].
Qed.

Lemma rstrip_keeps_head (c : ascii) (t : string) :
  isspace c = false → ∃ r, rstrip (String c t) = String c r.
Proof.
  intros Hc. simpl. destruct (rstrip t); [rewrite Hc |]; eauto.
Qed.

Lemma strip_idempotent (s : string) : strip (strip s) = strip s.
Proof.
  unfold strip. destruct (lstrip_head s) as [->|(c & t & -> & Hc)]; [reflexivity |].
  destruct (rstrip_keeps_head c t Hc) as [r Hr].
  rewrite Hr. cbn [lstrip]. rewrite Hc, <- Hr. apply rstrip_idempotent.
Qed.

Lemma normalize_symptom_idempotent (s : string) :
  normalize_symptom (normalize_symptom s) = normalize_symptom s.
Proof.
  unfold normalize_symptom.
  by rewrite lower_strip, lower_idempotent, strip_idempotent.
Qed.

(** X3. Matching is blind to case and to surrounding white space:
    normalising the symptoms before the call changes nothing, since a
    symptom in normal form is its own normal form. *)
Theorem get_triage_score_normalized_input (symptoms : list string) (age : Z) :
  (∀ s, normalize_symptom (normalize_symptom s) = normalize_symptom s)
  ∧ get_triage_score (map normalize_symptom symptoms) age
    = get_triage_score symptoms age.
Proof.
  split; [apply normalize_symptom_idempotent |].
  unfold get_triage_score. f_equal. rewrite map_map. apply map_ext.
  intros s. apply normalize_symptom_idempotent.
Qed.

Lemma score_normalized_no_symptom (age : Z) :
  score_normalized [] age
  = if age <? 1 then 5 else if age <? 18 then 2 else if age >=? 65 then 4 else 0.
Proof.
  unfold score_normalized.
  destruct (age <? 1), (age <? 18), (age >=? 65), (age <? 5), (age >? 75); reflexivity.
Qed.

(** X4. The age band is a floor under the score whatever the symptoms:
    5 for an infant, 2 for a minor, 4 from 65 years on; so an infant and
    an elderly patient are never rated Stable. *)
Theorem get_triage_score_age_floor (symptoms : list string) (age : Z) :
  (age < 1 → 5 ≤ get_triage_score symptoms age
             ∧ get_severity_level (get_triage_score symptoms age) ≠ "Stable")
  ∧ (1 ≤ age < 18 → 2 ≤ get_triage_score symptoms age)
  ∧ (65 ≤ age → 4 ≤ get_triage_score symptoms age
                ∧ get_severity_level (get_triage_score symptoms age) ≠ "Stable").
Proof.
  assert (score_normalized [] age ≤ get_triage_score symptoms age) as Hfloor.
  { unfold get_triage_score. apply score_normalized_mono. intros k Hk. discriminate. }
  rewrite score_normalized_no_symptom in Hfloor.
  assert (∀ score, 4 ≤ score → get_severity_level score ≠ "Stable") as Hlevel.
  { intros score Hscore. unfold get_severity_level.
    destruct (score >=? 7); [discriminate |].
    destruct (Z.geb_spec score 4); [discriminate | lia]. }
  split_and!.
  - intros Hage. destruct (Z.ltb_spec age 1); [| lia].
    split; [lia | apply Hlevel; lia].
  - intros Hage. destruct (Z.ltb_spec age 1); [lia |].
    destruct (Z.ltb_spec age 18); lia.
  - intros Hage. destruct (Z.ltb_spec age 1); [lia |].
    destruct (Z.ltb_spec age 18); [lia |]. destruct (Z.geb_spec age 65); [| lia].
    split; [lia | apply Hlevel; lia].
Qed.

Lemma get_triage_score_age_floor_witness :
  (5 ≤ get_triage_score ["runny nose"] 0
   ∧ get_severity_level (get_triage_score ["runny nose"] 0) ≠ "Stable")
  ∧ 2 ≤ get_triage_score [] 12
  ∧ 4 ≤ get_triage_score ["sneezing"] 80.
Proof.
  split; [| split].
  - destruct (get_triage_score_age_floor ["runny nose"] 0) as (Hinfant & _ & _).
    apply Hinfant. lia.
  - destruct (get_triage_score_age_floor [] 12) as (_ & Hminor & _).
    apply Hminor. lia.
  - destruct (get_triage_score_age_floor ["sneezing"] 80) as (_ & _ & Helderly).
    apply Helderly. lia.
Defined.

(** X5. The estimate of [get_estimated_wait_time] grows with the queue;
    for a queue that is not negative it is at least five minutes and
    ranks Critical before Urgent before Stable, no level being estimated
    above Stable; and every level that is neither Critical nor Urgent is
    estimated as Stable. *)
Theorem get_estimated_wait_time_ordered (level : string) (n m : Z) :
  (n ≤ m → get_estimated_wait_time level n ≤ get_estimated_wait_time level m)
  ∧ (0 ≤ n →
     5 ≤ get_estimated_wait_time level n
     ∧ get_estimated_wait_time "Critical" n ≤ get_estimated_wait_time "Urgent" n
     ∧ get_estimated_wait_time "Urgent" n ≤ get_estimated_wait_time "Stable" n
     ∧ get_estimated_wait_time level n ≤ get_estimated_wait_time "Stable" n)
  ∧ (level ≠ "Critical" → level ≠ "Urgent" →
     get_estimated_wait_time level n = get_estimated_wait_time "Stable" n).
Proof.
  unfold get_estimated_wait_time. simpl.
  destruct (String.eqb_spec level "Critical") as [?|Hc];
    destruct (String.eqb_spec level "Urgent") as [?|Hu];
    split_and!; intros; try lia; congruence.
Qed.

Lemma get_estimated_wait_time_ordered_witness :
  get_estimated_wait_time "Urgent" 2 ≤ get_estimated_wait_time "Urgent" 3
  ∧ 5 ≤ get_estimated_wait_time "Critical" 0
  ∧ get_estimated_wait_time "Medium" 4 = get_estimated_wait_time "Stable" 4.
Proof.
  split_and!.
  - destruct (get_estimated_wait_time_ordered "Urgent" 2 3) as (Hgrow & _ & _).
    apply Hgrow. lia.
  - destruct (get_estimated_wait_time_ordered "Critical" 0 0) as (_ & Hfloor & _).
    apply Hfloor. lia.
  - destruct (get_estimated_wait_time_ordered "Medium" 4 4) as (_ & _ & Hother).
    apply Hother; discriminate.
Defined.

(** X6. The estimate of [calculate_dynamic_eta] is never below five
    minutes, whatever the level and the queue length, negative ones
    included; it grows with the queue, ranks Critical before Urgent
    before Stable, and treats every other level as Stable. *)
Theorem calculate_dynamic_eta_ordered (level : string) (n m : Z) :
  5 ≤ Db.calculate_dynamic_eta level n
  ∧ Db.calculate_dynamic_eta "Critical" n ≤ Db.calculate_dynamic_eta "Urgent" n
  ∧ Db.calculate_dynamic_eta "Urgent" n ≤ Db.calculate_dynamic_eta "Stable" n
  ∧ Db.calculate_dynamic_eta level n ≤ Db.calculate_dynamic_eta "Stable" n
  ∧ (n ≤ m → Db.calculate_dynamic_eta level n ≤ Db.calculate_dynamic_eta level m)
  ∧ (level ≠ "Critical" → level ≠ "Urgent" →
     Db.calculate_dynamic_eta level n = Db.calculate_dynamic_eta "Stable" n).
Proof.
  unfold Db.calculate_dynamic_eta. simpl.
  destruct (String.eqb_spec level "Critical") as [?|Hc];
    destruct (String.eqb_spec level "Urgent") as [?|Hu];
    split_and!; intros; try lia; congruence.
Qed.

Lemma calculate_dynamic_eta_ordered_witness :
  Db.calculate_dynamic_eta "Urgent" (-4) ≤ Db.calculate_dynamic_eta "Urgent" 9
  ∧ Db.calculate_dynamic_eta "Low" 3 = Db.calculate_dynamic_eta "Stable" 3.
Proof.
  split.
  - destruct (calculate_dynamic_eta_ordered "Urgent" (-4) 9) as (_ & _ & _ & _ & Hgrow & _).
    apply Hgrow. lia.
  - destruct (calculate_dynamic_eta_ordered "Low" 3 3) as (_ & _ & _ & _ & _ & Hother).
    apply Hother; discriminate.
Defined.


(** ** More on the estimator *)

Section EstimatorMore.
Context {F : Type} {PF : PyFloat F}.
Implicit Types (w : world (F:=F)) (f : features (F:=F)).

(** X7. When [<] on floats is asymmetric and 0.1 is below 1.0, as on
    binary64, the confidence is never below 0.1 nor above 1.0, and
    computing it leaves the state alone. *)
Theorem calculate_confidence_clamped f w :
  flt_asymmetric (F:=F) → flt (lit 1 10) (lit 1 1) = true →
  ∃ c, _calculate_confidence f w = (Ok c, w)
    ∧ flt c (lit 1 10) = false
    ∧ flt (lit 1 1) c = false.
Proof.
  intros Hasym Hbounds. unfold _calculate_confidence. monad_unfold.
  eexists. split; [reflexivity |].
  match goal with |- context [py_fmin (lit 1 1) ?x] => generalize x end.
  intros c. unfold py_fmax, py_fmin.
  assert (∀ x : F, flt x x = false) as Hirrefl.
  { intros x. destruct (flt x x) eqn:Hx; [| reflexivity].
    pose proof (Hasym x x Hx). congruence. }
  destruct (flt c (lit 1 1)) eqn:Hc.
  - destruct (flt (lit 1 10) c) eqn:Hlow.
    + split; by apply Hasym.
    + split; [apply Hirrefl | by apply Hasym].
  - rewrite Hbounds. split; [by apply Hasym | apply Hirrefl].
Qed.

(** X8. The insights are never empty and never more than four, and the
    message for the length of the queue is always one of them. *)
Theorem generate_insights_bounds f (predicted_time : F) :
  (1 ≤ length (_generate_insights f predicted_time) ≤ 4)%nat
  ∧ (if queue_length f =? 0 then "No patients ahead - immediate attention"
     else if queue_length f <=? 3 then "Short queue - quick service expected"
     else if queue_length f <=? 7 then "Moderate queue - reasonable wait time"
     else "Longer queue - please be patient")
    ∈ _generate_insights f predicted_time.
Proof.
  unfold _generate_insights.
  destruct (eq_str (severity_level f) "Critical");
    [| destruct (eq_str (severity_level f) "Urgent")];
    (destruct (queue_length f =? 0);
       [| destruct (queue_length f <=? 3); [| destruct (queue_length f <=? 7)]]);
    (destruct (String.eqb (time_of_day f) "morning");
       [| destruct (String.eqb (time_of_day f) "evening")]);
    destruct (String.eqb (symptom_complexity f) "complex");
    cbn [app length]; (split; [lia | repeat first [by left | right]]).
Qed.

Lemma length_filter_le {A} (g : A → bool) (l : list A) :
  (length (List.filter g l) ≤ length l)%nat.
Proof. induction l as [| x l IH]; simpl; [lia |]. destruct (g x); simpl; lia. Qed.

Lemma length_filter_and_le {A} (g h : A → bool) (l : list A) :
  (length (List.filter (fun x => g x && h x) l) ≤ length (List.filter g l))%nat.
Proof.
  induction l as [| x l IH]; simpl; [lia |].
  destruct (g x), (h x); simpl; lia.
Qed.

(** X9. Feature extraction reads the clock once and always succeeds; the
    patients of high priority are counted among those not called, who are
    counted among the entries of the queue; the hour is an hour of the
    day and decides the period; the complexity is one of its three
    values, simple exactly for one symptom. *)
Theorem extract_features_invariants
    (pd : gmap string pyval) (q : list (gmap string pyval)) w :
  ∃ f, _extract_features pd q w = (Ok f, set_ticks (S (ticks w)) w)
    ∧ 0 ≤ high_priority_in_queue f ≤ queue_length f
    ∧ queue_length f ≤ len q
    ∧ 0 ≤ hour f < 24
    ∧ time_of_day f
      = (if hour f <? 6 then "night" else if hour f <? 12 then "morning"
         else if hour f <? 18 then "afternoon" else "evening")
    ∧ symptom_complexity f
      = (if symptom_count f =? 1 then "simple"
         else if symptom_count f <=? 3 then "moderate" else "complex")
    ∧ 0 ≤ symptom_count f.
Proof.
  unfold _extract_features. monad_unfold. eexists. split; [reflexivity |].
  cbn [high_priority_in_queue queue_length hour time_of_day symptom_complexity
       symptom_count].
  set (h := dt_hour (clock w (ticks w))).
  assert (0 ≤ h < 24) as Hh.
  { subst h. unfold dt_hour. apply Z.mod_pos_bound. lia. }
  split_and!.
  - unfold len. lia.
  - unfold len. pose proof (length_filter_and_le not_called is_high_priority q). lia.
  - unfold len. pose proof (length_filter_le not_called q). lia.
  - lia.
  - lia.
  - destruct (Z.leb_spec 6 h), (Z.ltb_spec h 12), (Z.leb_spec 12 h), (Z.ltb_spec h 18),
      (Z.leb_spec 18 h), (Z.ltb_spec h 24), (Z.ltb_spec h 6); simpl; try reflexivity; lia.
  - reflexivity.
  - destruct (default (VList []) (pd !! "symptoms")); unfold len; lia.
Qed.

(** X10. [predict_waiting_time] never raises: it answers with a wait of
    at least one minute, and leaves the history, the table and the jobs
    as they were, the clock alone having been read. *)
Theorem predict_waiting_time_total
    (pd : gmap string pyval) (q : list (gmap string pyval)) w :
  ∃ r w', predict_waiting_time pd q w = (Ok r, w')
    ∧ 1 ≤ predicted_wait_time r
    ∧ historical_data w' = historical_data w
    ∧ patients w' = patients w
    ∧ jobs w' = jobs w
    ∧ clock w' = clock w.
Proof.
  destruct (predict_waiting_time_answers pd q w) as (r & n & Hrun & Heta).
  exists r, (set_ticks n w). split_and!; done.
Qed.

End EstimatorMore.

Lemma Q_flt_asymmetric : flt_asymmetric (F:=Q).
Proof.
  intros x y. simpl. rewrite negb_true_iff, negb_false_iff.
  rewrite <- not_true_iff_false, !Qle_bool_iff. intros Hlt.
  apply Qnot_le_lt in Hlt. by apply Qlt_le_weak.
Qed.

Lemma calculate_confidence_clamped_witness :
  ∃ c, _calculate_confidence sample_features (world_with_history sample_history)
       = (Ok c, world_with_history sample_history)
    ∧ flt c (lit 1 10) = false ∧ flt (lit 1 1) c = false.
Proof.
  apply calculate_confidence_clamped; [exact Q_flt_asymmetric | reflexivity].
Defined.


(** ** The prediction endpoint and the feedback loop *)

Lemma split_on_nonempty (sep : ascii) (s : string) : split_on sep s ≠ [].
Proof.
  destruct s as [| c s]; simpl; [discriminate |].
  destruct (Ascii.eqb c sep); [discriminate |].
  destruct (split_on sep s); discriminate.
Qed.

(** X11. [split] gives back the pieces between the separators: joined
    with the separator they are the string again, none of them holds the
    separator, and they are one more than the separators of the string;
    so the empty string splits into one empty piece. *)
Theorem split_on_join (sep : ascii) (s : string) :
  join_with (String sep EmptyString) (split_on sep s) = s
  ∧ Forall (fun piece => sep ∉ chars piece) (split_on sep s)
  ∧ length (split_on sep s)
    = S (length (List.filter (fun c => Ascii.eqb c sep) (chars s))).
Proof.
  induction s as [| c s (IHjoin & IHpieces & IHlen)]; simpl.
  - split_and!; [reflexivity | | reflexivity].
    constructor; [apply not_elem_of_nil | constructor].
  - destruct (Ascii.eqb_spec c sep) as [->|Hne].
    + split_and!.
      * pose proof (split_on_nonempty sep s) as Hne.
        destruct (split_on sep s) as [| piece pieces]; [done |].
        change (join_with (String sep "") ("" :: piece :: pieces))
          with (String sep (join_with (String sep "") (piece :: pieces))).
        by rewrite IHjoin.
      * constructor; [apply not_elem_of_nil | exact IHpieces].
      * simpl. by rewrite IHlen.
    + pose proof (split_on_nonempty sep s) as Hnil.
      destruct (split_on sep s) as [| piece pieces]; [done |].
      split_and!.
      * destruct pieces as [| piece' pieces].
        -- simpl in *. by rewrite IHjoin.
        -- change (join_with (String sep "") (String c piece :: piece' :: pieces))
             with (String c (join_with (String sep "") (piece :: piece' :: pieces))).
           by rewrite IHjoin.
      * apply Forall_cons in IHpieces as [Hpiece Hrest].
        constructor; [| exact Hrest]. simpl.
        intros Hin. apply elem_of_cons in Hin as [->|Hin]; [done | by apply Hpiece].
      * exact IHlen.
Qed.

Section LoopFacts.
Context {F : Type} {PF : PyFloat F}.
Implicit Types (w : world (F:=F)) (f : features (F:=F)).

(** X12. The endpoint for a wait "as of now" never raises, answers with
    at least one minute, and changes neither the table nor the jobs nor
    the history. *)
Theorem predict_wait_time_read_only (severity_level symptoms : string) (age : Z) w :
  ∃ r w', predict_wait_time severity_level symptoms age w = (Ok r, w')
    ∧ 1 ≤ predicted_wait_time r
    ∧ patients w' = patients w
    ∧ jobs w' = jobs w
    ∧ historical_data w' = historical_data w.
Proof.
  unfold predict_wait_time. unfold mbind, M_bind, bind, get.
  match goal with
  | |- context [predict_waiting_time ?pd ?q w] =>
      destruct (predict_waiting_time_answers pd q w) as (r & n & Hrun & Heta);
      rewrite Hrun
  end.
  exists r, (set_ticks n w). split_and!; done.
Qed.

Lemma extract_features_run (pd : gmap string pyval) (q : list (gmap string pyval)) w :
  ∃ f, _extract_features pd q w = (Ok f, set_ticks (S (ticks w)) w)
    ∧ age f = default (VInt 30) (pd !! "age").
Proof.
  unfold _extract_features. monad_unfold. eexists. split; reflexivity.
Qed.

Lemma adaptive_adjustment_returns (base_time : F) w :
  ∃ b, adaptive_adjustment base_time w = (Ok b, w).
Proof.
  unfold adaptive_adjustment. unfold mbind at 1, M_bind, bind at 1, get.
  destruct (Z.gtb_spec (len (historical_data w)) 10) as [Hlen|_];
    [| unfold mret, M_ret, ret; eauto].
  unfold mbind, M_bind, bind. rewrite recent_accuracy_long by lia.
  destruct (flt _ _); unfold mret, M_ret, ret; eauto.
Qed.

(** X13. An age that is not a number — [None], a string, a list — makes
    the prediction fail inside, and the caller gets the fallback: the
    linear wait, the confidence 0.5 and its one insight, after two
    readings of the clock. *)
Theorem non_numeric_age_falls_back
    (pd : gmap string pyval) (q : list (gmap string pyval)) w (v : pyval) :
  pd !! "age" = Some v →
  lt_int v 18 = Raise TypeError →
  let severity := default (VStr "Medium") (pd !! "severity_level") in
  ∃ r, predict_waiting_time pd q w = (Ok r, set_ticks (S (S (ticks w))) w)
    ∧ predicted_wait_time r
      = fallback_base severity
        + fallback_increment severity * len (List.filter not_called q)
    ∧ confidence_score r = lit 5 10
    ∧ insights r = ["Using fallback prediction - AI temporarily unavailable"].
Proof.
  intros Hage Hnan severity.
  assert (∃ e, predict_body pd q w = (Raise e, set_ticks (S (ticks w)) w)) as [e Hraise].
  { unfold predict_body.
    destruct (extract_features_run pd q w) as (f & Hf & Hv).
    rewrite Hage in Hv. simpl in Hv.
    unfold mbind at 1, M_bind, bind at 1. rewrite Hf.
    unfold mbind at 1, M_bind, bind at 1, lift_result.
    destruct (_calculate_base_waiting_time f) as [base|e]; [| eauto].
    unfold mbind at 1, M_bind, bind at 1.
    unfold _apply_ai_adjustments. unfold mbind at 1, M_bind, bind at 1.
    destruct (adaptive_adjustment_returns base (set_ticks (S (ticks w)) w)) as [b ->].
    unfold mbind at 1, M_bind, bind at 1, lift_result, is_vulnerable_age.
    rewrite Hv, Hnan. eauto. }
  destruct (fallback_prediction_spec pd q (set_ticks (S (ticks w)) w))
    as (r & Hrun & Hrest).
  exists r. split; [| exact Hrest].
  unfold predict_waiting_time, try_except. rewrite Hraise. exact Hrun.
Qed.

Lemma last_n_absorbs {A} (n : nat) (l l' : list A) :
  last_n n (last_n n l ++ l') = last_n n (l ++ l').
Proof.
  destruct (decide (length l ≤ n)%nat) as [Hshort|Hlong].
  - by rewrite (last_n_short n l).
  - unfold last_n. rewrite !length_app, length_drop.
    rewrite <- (drop_app_le l l' (length l - n)) by lia.
    rewrite drop_drop. f_equal. lia.
Qed.

(** X14. A run of outcomes none of which is the pair of two zeros is
    recorded without an error, and the history afterwards is the last
    100 entries of the old history followed by the new entries, in the
    order of the calls. *)
Theorem record_outcomes_keeps_last_hundred (outcomes : list (Z * Z)) f : ∀ w,
  Forall (fun outcome => Z.max outcome.1 outcome.2 ≠ 0) outcomes →
  (length (historical_data w) ≤ 100)%nat →
  result_of (record_outcomes outcomes f) w = Ok tt
  ∧ historical_data (state_after (record_outcomes outcomes f) w)
    = last_n 100 (historical_data w ++ outcome_entries (clock w) (ticks w) outcomes f)
  ∧ (length (historical_data (state_after (record_outcomes outcomes f) w)) ≤ 100)%nat.
Proof.
  unfold record_outcomes.
  induction outcomes as [| [actual predicted] outcomes IH]; intros w Hok Hlen.
  - simpl. rewrite app_nil_r. unfold result_of, state_after. simpl.
    split_and!; [done | by rewrite last_n_short | done].
  - apply Forall_cons in Hok as [Hmax Hok]. simpl in Hmax.
    destruct (update_model_appends actual predicted f w Hmax) as [Hres Hhist].
    pose proof (update_model_bounded actual predicted f w Hlen) as Hbound.
    unfold result_of, state_after in *. cbn [for_each]. unfold bind.
    change ((actual, predicted).1) with actual. change ((actual, predicted).2) with predicted.
    destruct (update_model actual predicted f w) as [res w1] eqn:Hrun.
    simpl in Hres, Hhist, Hbound. subst res.
    assert (clock w1 = clock w ∧ ticks w1 = S (ticks w)) as [Hclock Hticks].
    { unfold update_model in Hrun. monad_unfold. simpl in Hrun.
      destruct (Z.eqb_spec (Z.max actual predicted) 0) as [?|_]; [contradiction |].
      simpl in Hrun. destruct (_ >? 100) in Hrun; injection Hrun as <-; done. }
    destruct (IH w1 Hok Hbound) as (IHres & IHhist & IHlen).
    split_and!; [exact IHres | | exact IHlen].
    rewrite IHhist, Hhist, Hclock, Hticks. cbn [outcome_entries fst snd].
    rewrite last_n_absorbs. by rewrite <- (assoc_L (++)).
Qed.

End LoopFacts.

Lemma non_numeric_age_falls_back_witness :
  ∃ r, predict_waiting_time sample_patient_data sample_queue (world_with_history [])
       = (Ok r, set_ticks 2 (world_with_history []))
    ∧ predicted_wait_time r = 14.
Proof.
  destruct (non_numeric_age_falls_back sample_patient_data sample_queue
              (world_with_history []) VNone)
    as (r & Hrun & Hwait & _); [reflexivity | reflexivity |].
  exists r. split; [exact Hrun |]. rewrite Hwait. vm_compute. reflexivity.
Defined.

Lemma record_outcomes_keeps_last_hundred_witness :
  length (historical_data
            (state_after (record_outcomes (replicate 101 (10, 20)) sample_features)
               (world_with_history []))) = 100%nat.
Proof.
  destruct (record_outcomes_keeps_last_hundred (replicate 101 (10, 20)) sample_features
              (world_with_history [])) as (_ & Hhist & _).
  - apply Forall_replicate. discriminate.
  - simpl. lia.
  - rewrite Hhist. rewrite length_last_n. vm_compute. reflexivity.
Defined.


(** ** More on the queue and the scheduler *)

Section QueueMore.

Lemma insert_by_priority_first p rows :
  Forall (served_no_later p) rows → insert_by_priority p rows = p :: rows.
Proof.
  intros Hall. destruct Hall as [| q rows Hq _]; simpl; [reflexivity |].
  unfold served_no_later in Hq. by rewrite Hq.
Qed.

Lemma filter_insert_by_priority (cond : Db.Patient → bool) p rows :
  StronglySorted served_no_later rows →
  List.filter cond (insert_by_priority p rows)
  = if cond p then insert_by_priority p (List.filter cond rows)
    else List.filter cond rows.
Proof.
  induction 1 as [| q rows Hsorted IH Hall]; simpl.
  - by destruct (cond p).
  - destruct (priority_le p q) eqn:Hpq.
    + simpl. destruct (cond p); [| reflexivity].
      symmetry. apply insert_by_priority_first.
      assert (Forall (served_no_later p) (q :: rows)) as Hp.
      { constructor; [exact Hpq |]. eapply Forall_impl; [exact Hall |].
        unfold served_no_later. intros r Hqr. by eapply priority_le_trans. }
      apply Forall_forall. intros r Hr.
      apply list_elem_of_In, (filter_In cond r (q :: rows)) in Hr as [Hr _].
      rewrite Forall_forall in Hp. by apply Hp, list_elem_of_In.
    + simpl. rewrite IH. destruct (cond q), (cond p); simpl; try reflexivity.
      by rewrite Hpq.
Qed.

Lemma filter_order_by_priority (cond : Db.Patient → bool) rows :
  List.filter cond (order_by_priority rows) = order_by_priority (List.filter cond rows).
Proof.
  induction rows as [| p rows IH]; simpl; [reflexivity |].
  rewrite filter_insert_by_priority by apply order_by_priority_sorted.
  rewrite IH. by destruct (cond p).
Qed.

End QueueMore.

Section SchedulerMore.
Context {F : Type} {PF : PyFloat F}.
Implicit Types (w : world (F:=F)) (p q : Db.Patient).

(** X15. [get_patients] changes nothing and lists every row once, in the
    order of the queue; the queue of the scheduler is that list without
    the patients already called. *)
Theorem get_patients_lists_queue w :
  ∃ rows, get_patients w = (Ok rows, w)
    ∧ rows ≡ₚ patients w
    ∧ StronglySorted served_no_later rows
    ∧ List.filter uncalled rows = patients_in_queue (patients w).
Proof.
  exists (order_by_priority (patients w)). split_and!.
  - reflexivity.
  - apply order_by_priority_perm.
  - apply order_by_priority_sorted.
  - apply filter_order_by_priority.
Qed.

Lemma window_in_queue w p :
  p ∈ notification_window w → p ∈ patients w ∧ Db.called p = false.
Proof.
  unfold notification_window. intros Hp. apply elem_of_take in Hp as (i & Hp & _).
  apply list_elem_of_lookup_2 in Hp.
  unfold patients_in_queue in Hp. rewrite order_by_priority_perm in Hp.
  apply list_elem_of_In, filter_In in Hp as [Hin Hun].
  split; [by apply list_elem_of_In |].
  unfold uncalled in Hun. by apply negb_true_iff in Hun.
Qed.

(** With ids that tell the rows apart, a job id of the window belongs
    to a patient of the window. *)
Lemma window_owns_job_id w p :
  NoDup (map Db.id (patients w)) → p ∈ patients w →
  job_id (Db.id p) ∈ job_ids (notification_window w) → p ∈ notification_window w.
Proof.
  intros Hids Hp Hk. unfold job_ids in Hk.
  apply list_elem_of_fmap in Hk as (q & Hid & Hq).
  apply job_id_inj in Hid.
  destruct (window_in_queue w q Hq) as [Hqin _].
  by rewrite (same_id_same_row (patients w) p q Hids Hp Hqin Hid).
Qed.

Lemma resync_absent_outside_window w p :
  NoDup (map Db.id (patients w)) → p ∈ patients w →
  (p ∉ notification_window w →
   jobs (state_after reschedule_queue_notifications w) !! job_id (Db.id p) = None)
  ∧ result_of reschedule_queue_notifications w = Ok tt.
Proof.
  intros Hids Hrow. unfold state_after, result_of.
  destruct (reschedule_spec w)
    as (w' & Hrun & _ & _ & _ & _ & _ & _ & Hgone & _).
  rewrite Hrun. simpl. split; [| reflexivity].
  intros Hout. apply Hgone; [apply is_notify_job_id |].
  intros Hk. by apply Hout, window_owns_job_id.
Qed.

(** X16. With ids that tell the rows apart, one resync leaves every job
    that is not a notification job alone, gives each patient of the
    window a job that carries the patient's id, user id and language,
    and leaves every other patient of the table — called, or beyond the
    window — without one; the window holds at most three patients, all
    of the table and none of them called. *)
Theorem resync_jobs_match_window w :
  NoDup (map Db.id (patients w)) →
  let w' := state_after reschedule_queue_notifications w in
  result_of reschedule_queue_notifications w = Ok tt
  ∧ (∀ k, is_notify_job k = false → jobs w' !! k = jobs w !! k)
  ∧ (∀ p, p ∈ notification_window w →
       p ∈ patients w ∧ Db.called p = false
       ∧ ∃ fire, jobs w' !! job_id (Db.id p) = Some (job_for p fire))
  ∧ (∀ p, p ∈ patients w → p ∉ notification_window w →
       jobs w' !! job_id (Db.id p) = None)
  ∧ (length (notification_window w) ≤ 3)%nat.
Proof.
  intros Hids w'. subst w'. unfold state_after, result_of.
  destruct (reschedule_spec w)
    as (w' & Hrun & _ & _ & _ & _ & _ & Hother & Hgone & Hin).
  rewrite Hrun. simpl. split_and!.
  - reflexivity.
  - exact Hother.
  - intros p Hp. destruct (window_in_queue w p Hp) as [Hrow Hcalled].
    split_and!; [exact Hrow | exact Hcalled |].
    destruct (Hin (job_id (Db.id p))) as (q & n & Hq & Hid & _ & Hjob).
    { unfold job_ids. apply list_elem_of_fmap. by exists p. }
    apply job_id_inj in Hid.
    destruct (window_in_queue w q Hq) as [Hqrow _].
    rewrite <- (same_id_same_row (patients w) p q Hids Hrow Hqrow Hid) in Hjob.
    eauto.
  - intros p Hrow Hout. apply Hgone; [apply is_notify_job_id |].
    intros Hk. by apply Hout, window_owns_job_id.
  - apply length_notification_window.
Qed.

(** X17. With a clock that never runs backwards, no notification job
    left by a resync is to fire before the instant at which the resync
    began. *)
Theorem resync_never_schedules_before_start w :
  monotone_clock w →
  let w' := state_after reschedule_queue_notifications w in
  ∀ k j, is_notify_job k = true → jobs w' !! k = Some j →
         clock w (ticks w) ≤ run_date j.
Proof.
  intros Hmono w' k j Hk Hjob. subst w'. unfold state_after in Hjob.
  destruct (reschedule_spec w)
    as (w' & Hrun & _ & _ & _ & _ & _ & _ & Hgone & Hin).
  rewrite Hrun in Hjob. simpl in Hjob.
  destruct (decide (k ∈ job_ids (notification_window w))) as [Hwin|Hout].
  - destruct (Hin k Hwin) as (p & n & _ & _ & Hn & Hjob').
    rewrite Hjob' in Hjob. injection Hjob as <-. simpl.
    etransitivity; [| apply fire_time_not_before; apply Hmono; lia].
    apply Hmono. lia.
  - rewrite (Hgone k Hk Hout) in Hjob. discriminate.
Qed.

(** X18. The window is the head of the queue: no patient of the queue
    who is outside the window comes before a patient inside it. *)
Theorem window_is_head_of_queue w p q :
  p ∈ notification_window w →
  q ∈ patients_in_queue (patients w) →
  q ∉ notification_window w →
  served_no_later p q.
Proof.
  unfold notification_window. intros Hp Hq Hout.
  pose proof (order_by_priority_sorted (query_filter uncalled (patients w))) as Hsorted.
  fold (patients_in_queue (patients w)) in Hsorted.
  rewrite <- (take_drop NOTIFICATION_WINDOW (patients_in_queue (patients w))) in Hsorted, Hq.
  apply elem_of_app in Hq as [Hq|Hq]; [contradiction |].
  by eapply StronglySorted_app_1_elem_of.
Qed.

End SchedulerMore.

Lemma resync_jobs_match_window_witness :
  let w := world_of (F:=Q) ticking_clock
             [sample_patient 1 4 5 20 false; sample_patient 2 9 5 30 true] in
  jobs (state_after reschedule_queue_notifications w) !! job_id 2 = None.
Proof.
  intros w.
  destruct (resync_jobs_match_window w) as (_ & _ & _ & Hnone & _).
  - simpl. apply NoDup_cons. split; [| apply NoDup_singleton].
    intros Hin. apply list_elem_of_singleton in Hin. discriminate.
  - apply (Hnone (sample_patient 2 9 5 30 true)).
    + right. left.
    + intros Hin. apply list_elem_of_In in Hin. vm_compute in Hin.
      destruct Hin as [Hin|[]]. discriminate.
Defined.

Lemma resync_never_schedules_before_start_witness :
  let w := world_of (F:=Q) ticking_clock [sample_patient 1 4 2 20 false] in
  ∃ j, jobs (state_after reschedule_queue_notifications w) !! job_id 1 = Some j
       ∧ 0 ≤ run_date j.
Proof.
  intros w.
  destruct (jobs (state_after reschedule_queue_notifications w) !! job_id 1)
    as [j|] eqn:Hj; [| by vm_compute in Hj].
  exists j. split; [reflexivity |].
  apply (resync_never_schedules_before_start w) with (k := job_id 1).
  - intros n m Hnm. unfold w, world_of, ticking_clock. simpl. lia.
  - apply is_notify_job_id.
  - exact Hj.
Defined.

Lemma window_is_head_of_queue_witness :
  let rows := [sample_patient 1 4 5 20 false; sample_patient 2 9 5 30 false;
               sample_patient 3 4 5 10 false; sample_patient 4 2 5 0 false] in
  served_no_later (sample_patient 1 4 5 20 false) (sample_patient 4 2 5 0 false).
Proof.
  intros rows.
  apply (window_is_head_of_queue (world_of (F:=Q) ticking_clock rows)).
  - apply list_elem_of_In. vm_compute. tauto.
  - apply list_elem_of_In. vm_compute. tauto.
  - intros Hin. apply list_elem_of_In in Hin. vm_compute in Hin.
    destruct Hin as [Hin|[Hin|[Hin|[]]]]; discriminate.
Defined.


(** ** More on the handlers *)

Section HandlersMore.
Context {F : Type} {PF : PyFloat F}.
Implicit Types (w : world (F:=F)) (p old : Db.Patient).

(** The tail of both handlers when the call to the API succeeds, and
    when it fails. *)
Lemma notify_tail_up {A} (a : A) w :
  network_up w = true →
  (broadcast_queue_update;; reschedule_queue_notifications;; mret a) w
  = (Ok a, state_after reschedule_queue_notifications w).
Proof.
  intros Hup. unfold state_after.
  destruct (reschedule_spec w) as (w' & Hrun & _).
  unfold broadcast_queue_update. unfold mbind, M_bind, bind, get. cbv beta iota.
  rewrite Hup. unfold mret, M_ret, ret. by rewrite Hrun.
Qed.

Lemma notify_tail_down {A} (a : A) w :
  network_up w = false →
  (broadcast_queue_update;; reschedule_queue_notifications;; mret a) w
  = (Raise HTTPError, w).
Proof.
  intros Hdown. unfold broadcast_queue_update. unfold mbind, M_bind, bind, get.
  cbv beta iota. rewrite Hdown. reflexivity.
Qed.

Lemma no_row_with_id (patient_id : Z) (rows : list Db.Patient) :
  patient_id ∉ map Db.id rows →
  query_first (query_filter (fun p => Db.id p =? patient_id) rows) = None.
Proof.
  unfold query_first, query_filter.
  induction rows as [| p rows IH]; simpl; intros Hout; [reflexivity |].
  apply not_elem_of_cons in Hout as [Hne Hout].
  destruct (Z.eqb_spec (Db.id p) patient_id) as [?|_]; [congruence | by apply IH].
Qed.

Lemma first_row_with_id (rows : list Db.Patient) old :
  NoDup (map Db.id rows) → old ∈ rows →
  query_first (query_filter (fun p => Db.id p =? Db.id old) rows) = Some old.
Proof.
  unfold query_first, query_filter.
  induction rows as [| p rows IH]; intros Hnodup Hold.
  - by apply elem_of_nil in Hold.
  - simpl in Hnodup. apply NoDup_cons in Hnodup as [Hfresh Hnodup]. simpl.
    apply elem_of_cons in Hold as [->|Hold].
    + by rewrite Z.eqb_refl.
    + destruct (Z.eqb_spec (Db.id p) (Db.id old)) as [Hp|_]; [| by apply IH].
      exfalso. apply Hfresh. rewrite Hp. apply list_elem_of_fmap. by exists old.
Qed.

(** What [update_patient] does up to the broadcast. *)
Lemma update_patient_run (called : bool) w old :
  NoDup (map Db.id (patients w)) → old ∈ patients w →
  update_patient (Db.id old) called w
  = (broadcast_queue_update;; reschedule_queue_notifications;;
     mret (Db.id old, called))
      (set_patients
         (map (fun p => if Db.id p =? Db.id old then with_called p called else p)
              (patients w)) w).
Proof.
  intros Hids Hold. unfold update_patient.
  unfold mbind at 1, M_bind, bind at 1, get.
  rewrite (first_row_with_id (patients w) old Hids Hold).
  reflexivity.
Qed.


Lemma overwrite_called_other (called : bool) (rows : list Db.Patient) old p :
  p ∈ rows → Db.id p ≠ Db.id old →
  p ∈ map (fun p => if Db.id p =? Db.id old then with_called p called else p) rows.
Proof.
  intros Hp Hne. apply list_elem_of_fmap. exists p. split; [| exact Hp].
  destruct (Z.eqb_spec (Db.id p) (Db.id old)); [contradiction | reflexivity].
Qed.

(** X20. On a table whose ids tell the rows apart and with the API
    reachable, [update_patient] returns the id and the flag, writes the
    flag into the row of that id and into no other column or row, and
    resyncs: a patient marked as called has no notification job
    afterwards. *)
Theorem update_patient_marks_row (called : bool) w old :
  NoDup (map Db.id (patients w)) → old ∈ patients w → network_up w = true →
  let w' := state_after (update_patient (Db.id old) called) w in
  result_of (update_patient (Db.id old) called) w = Ok (Db.id old, called)
  ∧ patients w'
    = map (fun p => if Db.id p =? Db.id old then with_called p called else p)
          (patients w)
  ∧ with_called old called ∈ patients w'
  ∧ (∀ p, p ∈ patients w → p ≠ old → p ∈ patients w')
  ∧ length (patients w') = length (patients w)
  ∧ (called = true → jobs w' !! job_id (Db.id old) = None).
Proof.
  intros Hids Hold Hup w'. subst w'. unfold result_of, state_after.
  rewrite (update_patient_run called w old Hids Hold).
  set (rows' := map _ (patients w)). set (w1 := set_patients rows' w).
  rewrite notify_tail_up by exact Hup. simpl.
  assert (patients (state_after reschedule_queue_notifications w1) = rows') as Hrows.
  { unfold state_after. by rewrite reschedule_keeps_patients. }
  assert (with_called old called ∈ rows') as Hnew.
  { apply list_elem_of_fmap. exists old. by rewrite Z.eqb_refl. }
  assert (map Db.id rows' = map Db.id (patients w)) as Hids'.
  { subst rows'. rewrite map_map. apply map_ext. intros p.
    by destruct (Db.id p =? Db.id old). }
  split_and!.
  - reflexivity.
  - exact Hrows.
  - by rewrite Hrows.
  - intros p Hp Hne. rewrite Hrows. apply overwrite_called_other; [exact Hp |].
    intros Hid. by apply Hne, (same_id_same_row (patients w)).
  - rewrite Hrows. unfold rows'. apply length_map.
  - intros ->.
    destruct (resync_absent_outside_window w1 (with_called old true)) as [Hnone _].
    + change (patients w1) with rows'. by rewrite Hids'.
    + exact Hnew.
    + apply Hnone. intros Hwin. by apply window_in_queue in Hwin as [_ Hcalled].
Qed.

(** X21. When the call to the API fails, [update_patient] raises the
    error of the call after the row has been written: the flag is in the
    table, and the jobs are those of before, not resynced. *)
Theorem update_patient_network_down (called : bool) w old :
  NoDup (map Db.id (patients w)) → old ∈ patients w → network_up w = false →
  let w' := state_after (update_patient (Db.id old) called) w in
  result_of (update_patient (Db.id old) called) w = Raise HTTPError
  ∧ with_called old called ∈ patients w'
  ∧ jobs w' = jobs w.
Proof.
  intros Hids Hold Hdown w'. subst w'. unfold result_of, state_after.
  rewrite (update_patient_run called w old Hids Hold).
  rewrite notify_tail_down by exact Hdown. simpl. split_and!; [done | | done].
  apply list_elem_of_fmap. exists old. by rewrite Z.eqb_refl.
Qed.

(** What [create_patient] does up to the broadcast for a user who has
    no row. *)
Lemma create_patient_new_run (patient : PatientCreate.t) w :
  PatientCreate.user_id patient ∉ map Db.user_id (patients w) →
  ∃ eta n, 1 ≤ eta
    ∧ create_patient patient w
      = (broadcast_queue_update;; reschedule_queue_notifications;;
         mret (next_id (patients w), eta,
               get_severity_level
                 (get_triage_score (PatientCreate.symptoms patient)
                    (PatientCreate.age patient))))
          (set_patients
             (patients w
              ++ [admitted (next_id (patients w)) patient eta (clock w n)])
             (set_ticks (S n) w)).
Proof.
  intros Hnew.
  assert (query_first (rows_of_user (PatientCreate.user_id patient) (patients w)) = None)
    as Hnone.
  { destruct (query_first _) as [old|] eqn:Hq; [| reflexivity].
    unfold query_first, rows_of_user, query_filter in Hq.
    apply head_Some_elem_of, list_elem_of_In, filter_In in Hq as [Hin Hu].
    exfalso. apply Hnew. apply list_elem_of_fmap. exists old.
    split; [lia | by apply list_elem_of_In]. }
  unfold rows_of_user in Hnone. unfold create_patient.
  unfold mbind at 1, M_bind, bind at 1, get. rewrite Hnone.
  unfold mbind at 1, M_bind, bind at 1.
  match goal with
  | |- context [predict_waiting_time ?pd ?q w] =>
      destruct (predict_waiting_time_answers pd q w) as (r & n & Hrun & Heta);
      rewrite Hrun
  end.
  exists (predicted_wait_time r), n. split; [exact Heta | reflexivity].
Qed.



End HandlersMore.

Ltac not_in_sample :=
  let H := fresh in
  intros H; apply list_elem_of_In in H; vm_compute in H; intuition discriminate.


Lemma update_patient_marks_row_witness :
  let w := world_of (F:=Q) ticking_clock
             [sample_patient 1 4 5 20 false; sample_patient 2 9 5 30 false] in
  let w' := state_after (update_patient 1 true) w in
  result_of (update_patient 1 true) w = Ok (1, true)
  ∧ jobs w' !! job_id 1 = None.
Proof.
  intros w w'.
  destruct (update_patient_marks_row true w (sample_patient 1 4 5 20 false))
    as (Hres & _ & _ & _ & _ & Hjob).
  - simpl. apply NoDup_cons. split; [not_in_sample | apply NoDup_singleton].
  - left.
  - reflexivity.
  - split; [exact Hres | by apply Hjob].
Defined.

Lemma update_patient_network_down_witness :
  let w := offline (world_of (F:=Q) ticking_clock
                      [sample_patient 1 4 5 20 false; sample_patient 2 9 5 30 false]) in
  result_of (update_patient 2 true) w = Raise HTTPError
  ∧ jobs (state_after (update_patient 2 true) w) = jobs w.
Proof.
  intros w.
  destruct (update_patient_network_down true w (sample_patient 2 9 5 30 false))
    as (Hres & _ & Hjobs).
  - simpl. apply NoDup_cons. split; [not_in_sample | apply NoDup_singleton].
  - right. left.
  - reflexivity.
  - split; [exact Hres | exact Hjobs].
Defined.




(** ** Queue analytics *)

Section AnalyticsFacts.
Context {F : Type} {PF : PyFloat F} {PO : PyFloatOps F}.
Implicit Types (w : world (F:=F)) (q : list (gmap string (pyval (F:=F))))
  (d : list (pyval (F:=F) * Z)).

Lemma dict_total_incr d (k : pyval) : dict_total (dict_incr d k) = dict_total d + 1.
Proof.
  unfold dict_total. induction d as [| [k' n] d IH]; simpl; [lia |].
  destruct (key_eqb k' k); simpl; lia.
Qed.

Lemma count_priorities_total q : ∀ d d',
  count_priorities q d = Ok d' → dict_total d' = dict_total d + len q.
Proof.
  induction q as [| p q IH]; intros d d' Hrun; simpl in Hrun.
  - injection Hrun as <-. unfold len. simpl. lia.
  - destruct (default (VStr "Medium") (p !! "severity_level")) eqn:Hsev;
      try discriminate;
      apply IH in Hrun; rewrite Hrun, dict_total_incr; unfold len; simpl; lia.
Qed.

Lemma filter_all_called q :
  Forall (fun p => not_called p = false) q → List.filter not_called q = [].
Proof.
  induction 1 as [| p q Hp _ IH]; simpl; [reflexivity |]. by rewrite Hp.
Qed.

(** X24. A queue with nobody left to call is summed up without a
    division: the average is the integer 0, no level is counted and
    nothing is recommended. The empty queue gets the summary of its own,
    which has neither the key of the uncalled patients nor that of the
    confidence and for which the clock is not read. *)
Theorem queue_analytics_nobody_waiting q w :
  Forall (fun p => not_called p = false) q →
  ∃ a w', get_queue_analytics q w = (Ok a, w')
    ∧ total_patients a = len q
    ∧ average_wait_time a = NInt 0
    ∧ priority_distribution a = []
    ∧ (q = [] →
       w' = w ∧ uncalled_patients a = None ∧ ai_confidence a = None
       ∧ recommendations a = ["No patients in queue"])
    ∧ (q ≠ [] →
       w' = set_ticks (S (ticks w)) w ∧ uncalled_patients a = Some 0
       ∧ ai_confidence a = Some (lit 85 100) ∧ recommendations a = []).
Proof.
  intros Hcalled. destruct q as [| p q].
  - eexists _, w. split; [reflexivity |]. simpl. split_and!; done.
  - unfold get_queue_analytics. rewrite (filter_all_called _ Hcalled).
    monad_unfold. simpl. eexists _, _. split; [reflexivity |]. simpl.
    split_and!; done.
Qed.

(** X25. Whenever the analytics of a queue that is not empty are
    returned, the uncalled patients are counted among the total, every
    one of them is counted under exactly one level, and the three
    recommendations follow their thresholds: more than 8 uncalled, more
    than 2 Critical, and an average above 45 minutes, the average being
    compared before it is rounded. *)
Theorem queue_analytics_counts q w (a : analytics) w' :
  q ≠ [] →
  get_queue_analytics q w = (Ok a, w') →
  ∃ u avg_wait,
    uncalled_patients a = Some u
    ∧ 0 ≤ u ≤ total_patients a
    ∧ total_patients a = len q
    ∧ dict_total (priority_distribution a) = u
    ∧ average_wait_time a = py_round1 avg_wait
    ∧ ("High queue volume - consider additional staff" ∈ recommendations a ↔ 8 < u)
    ∧ ("Multiple critical patients - prioritize urgent care" ∈ recommendations a
       ↔ 2 < dict_count (priority_distribution a) (VStr "Critical"))
    ∧ ("Long wait times - inform patients of delays" ∈ recommendations a
       ↔ above_45 avg_wait = true)
    ∧ (length (recommendations a) ≤ 3)%nat.
Proof.
  intros Hne Hrun. destruct q as [| p q]; [done |].
  unfold get_queue_analytics in Hrun.
  set (queue := p :: q) in *. set (waiting := List.filter not_called queue) in *.
  unfold mbind at 1, M_bind, bind at 1, lift_result in Hrun.
  destruct (count_priorities waiting []) as [dist|e] eqn:Hdist; [| discriminate].
  unfold mbind at 1, M_bind, bind at 1 in Hrun.
  match type of Hrun with
  | context [match ?avg with Ok _ => _ | Raise _ => _ end] =>
      destruct avg as [avg_wait|e]; [| discriminate]
  end.
  monad_unfold. injection Hrun as <- _.
  cbn [total_patients uncalled_patients priority_distribution recommendations
       average_wait_time].
  apply count_priorities_total in Hdist. unfold dict_total in Hdist at 2.
  simpl in Hdist.
  exists (len waiting), avg_wait.
  assert (0 ≤ len waiting ≤ len queue) as Hbound.
  { unfold len, waiting. pose proof (length_filter_le not_called queue). lia. }
  split; [reflexivity |]. split; [exact Hbound |]. split; [reflexivity |].
  split; [exact Hdist |]. split; [reflexivity |].
  destruct (Z.gtb_spec (len waiting) 8) as [Hlong|Hshort],
    (Z.gtb_spec (dict_count dist (VStr "Critical")) 2) as [Hmany|Hfew],
    (above_45 avg_wait);
    simpl; rewrite !list_elem_of_In; simpl;
    (split; [| split; [| split]]);
    first [lia | split; intros H; first [lia | discriminate | tauto | idtac]];
    repeat (destruct H as [H|H]; try discriminate H); try done; try lia.
Qed.

Lemma analytics_entry_called (p : Db.Patient) :
  analytics_entry (F:=F) p !! "called" = Some (VBool (Db.called p)).
Proof. reflexivity. Qed.

Lemma analytics_entry_severity_level (p : Db.Patient) :
  analytics_entry (F:=F) p !! "severity_level" = Some (VStr (Db.severity_level p)).
Proof. reflexivity. Qed.

Lemma analytics_entry_eta (p : Db.Patient) :
  analytics_entry (F:=F) p !! "eta" = Some (VInt (Db.eta p)).
Proof. reflexivity. Qed.

Lemma not_called_analytics_entry (p : Db.Patient) :
  not_called (analytics_entry (F:=F) p) = uncalled p.
Proof.
  unfold not_called, uncalled. rewrite analytics_entry_called. simpl.
  by destruct (Db.called p).
Qed.

Lemma filter_analytics_entries (rows : list Db.Patient) :
  List.filter not_called (map (analytics_entry (F:=F)) rows)
  = map analytics_entry (List.filter uncalled rows).
Proof.
  induction rows as [| p rows IH]; simpl; [reflexivity |].
  rewrite not_called_analytics_entry. destruct (uncalled p); simpl; by rewrite IH.
Qed.

Lemma dict_count_incr_string d (s t : string) :
  string_keys d →
  string_keys (dict_incr d (VStr t))
  ∧ dict_count (dict_incr d (VStr t)) (VStr s)
    = dict_count d (VStr s) + (if String.eqb t s then 1 else 0).
Proof.
  unfold string_keys. induction 1 as [| [k n] d [k' Hk] Hd [IHkeys IH]]; simpl.
  - split; [repeat constructor; by exists t |].
    change (key_eqb (VStr t) (VStr s)) with (String.eqb t s).
    destruct (String.eqb t s); lia.
  - simpl in Hk. subst k.
    change (key_eqb (VStr k') (VStr t)) with (String.eqb k' t).
    destruct (String.eqb_spec k' t) as [->|Hne]; simpl.
    + split; [constructor; [by exists t | exact Hd] |].
      change (key_eqb (VStr t) (VStr s)) with (String.eqb t s).
      destruct (String.eqb t s); lia.
    + split; [constructor; [by exists k' | exact IHkeys] |].
      change (key_eqb (VStr k') (VStr s)) with (String.eqb k' s).
      destruct (String.eqb_spec k' s) as [->|_]; [| exact IH].
      destruct (String.eqb_spec t s) as [->|_]; [done | lia].
Qed.

Lemma count_priorities_rows (rows : list Db.Patient) : ∀ d,
  string_keys d →
  ∃ d', count_priorities (map (analytics_entry (F:=F)) rows) d = Ok d'
    ∧ string_keys d'
    ∧ ∀ level, dict_count d' (VStr level)
               = dict_count d (VStr level)
                 + len (List.filter (fun p => String.eqb (Db.severity_level p) level) rows).
Proof.
  induction rows as [| p rows IH]; intros d Hd; simpl.
  - exists d. split_and!; [done | done |]. intros level. unfold len. simpl. lia.
  - rewrite analytics_entry_severity_level. cbn [default from_option id].
    destruct (dict_count_incr_string d (Db.severity_level p) (Db.severity_level p) Hd)
      as [Hkeys _].
    destruct (IH _ Hkeys) as (d' & Hrun & Hkeys' & Hcount).
    exists d'. split_and!; [exact Hrun | exact Hkeys' |].
    intros level. rewrite Hcount.
    destruct (dict_count_incr_string d level (Db.severity_level p) Hd) as [_ ->].
    destruct (String.eqb (Db.severity_level p) level); unfold len; simpl; lia.
Qed.

Lemma filter_filter_andb {A} (f g : A → bool) (l : list A) :
  List.filter g (List.filter f l) = List.filter (fun x => (f x && g x)%bool) l.
Proof.
  induction l as [| x l IH]; simpl; [reflexivity |].
  destruct (f x); simpl; [destruct (g x) |]; by rewrite IH.
Qed.

Lemma py_sum_etas (rows : list Db.Patient) :
  py_sum (map (fun p => default (VInt 15) (p !! "eta"))
              (map (analytics_entry (F:=F)) rows)) = Ok (NInt (total_eta rows)).
Proof.
  unfold py_sum, total_eta.
  assert (as_numbers (map (fun p => default (VInt 15) (p !! "eta"))
                          (map (analytics_entry (F:=F)) rows))
          = Some (map inl (map Db.eta rows))) as ->.
  { induction rows as [| p rows IH]; simpl; [reflexivity |].
    rewrite analytics_entry_eta. simpl. by rewrite IH. }
  assert (∀ zs, all_ints (map (inl (B:=F)) zs) = Some zs) as ->; [| reflexivity].
  induction zs as [| z zs IH]; simpl; [reflexivity | by rewrite IH].
Qed.

(** X26. The analytics endpoint never raises on a table: it changes
    neither the table nor the jobs nor the history, counts every row,
    and, on a table that is not empty, counts the uncalled rows and,
    level by level, the uncalled rows of that level; the average is the
    rounded quotient of the sum of their etas by their number, and the
    integer 0 when every row is called. *)
Theorem queue_analytics_endpoint_counts_rows w :
  ∃ a w', queue_analytics_endpoint w = (Ok a, w')
    ∧ patients w' = patients w ∧ jobs w' = jobs w
    ∧ historical_data w' = historical_data w
    ∧ total_patients a = len (patients w)
    ∧ (patients w ≠ [] →
       let waiting := List.filter uncalled (patients w) in
       uncalled_patients a = Some (len waiting)
       ∧ (∀ level, dict_count (priority_distribution a) (VStr level)
                   = len (uncalled_of_level level (patients w)))
       ∧ average_wait_time a
         = match waiting with
           | [] => NInt 0
           | _ => NFloat (fround1 (truediv (total_eta waiting) (len waiting)))
           end).
Proof.
  unfold queue_analytics_endpoint. unfold mbind at 1, M_bind, bind at 1, get.
  destruct (patients w) as [| p rows] eqn:Hrows.
  - eexists _, w. split; [reflexivity |]. split_and!; done.
  - rewrite <- Hrows. unfold get_queue_analytics.
    remember (map (analytics_entry (F:=F)) (patients w)) as queue eqn:Hqueue.
    destruct queue as [| e es]; [by rewrite Hrows in Hqueue |].
    rewrite Hqueue. rewrite filter_analytics_entries.
    set (waiting := List.filter uncalled (patients w)).
    destruct (count_priorities_rows waiting []) as (dist & Hdist & _ & Hcount);
      [constructor |].
    unfold mbind at 1, M_bind, bind at 1, lift_result. rewrite Hdist.
    unfold mbind at 1, M_bind, bind at 1.
    rewrite (py_sum_etas waiting).
    assert (∀ level, dict_count dist (VStr level)
                     = len (uncalled_of_level level (patients w))) as Hlevels.
    { intros level. rewrite Hcount. simpl. unfold uncalled_of_level, waiting.
      by rewrite <- (filter_filter_andb uncalled). }
    assert (len (map (analytics_entry (F:=F)) waiting) = len waiting) as Hlen
      by (unfold len; by rewrite length_map).
    assert (len (map (analytics_entry (F:=F)) (patients w)) = len (patients w))
      as Hlen' by (unfold len; by rewrite length_map).
    match goal with
    | |- context [match ?avg with Ok _ => _ | Raise _ => _ end] =>
        assert (avg = Ok match waiting with
                         | [] => NInt 0
                         | _ => NFloat (truediv (total_eta waiting) (len waiting))
                         end) as ->
    end.
    { rewrite Hlen. by destruct waiting. }
    monad_unfold. simpl. eexists _, _. split; [reflexivity |]. simpl.
    rewrite Hlen, Hlen'. split_and!; try done.
    intros _. split_and!; try done. by destruct waiting.
Qed.

End AnalyticsFacts.


Lemma queue_analytics_nobody_waiting_witness :
  let q : list (gmap string (pyval (F:=Q))) :=
    [ {[ "called" := VBool true; "severity_level" := VStr "Critical" ]} ] in
  ∃ a w', get_queue_analytics q (world_with_history []) = (Ok a, w')
    ∧ total_patients a = 1
    ∧ average_wait_time a = NInt 0
    ∧ uncalled_patients a = Some 0
    ∧ recommendations a = [].
Proof.
  intros q.
  destruct (queue_analytics_nobody_waiting q (world_with_history []))
    as (a & w' & Hrun & Htotal & Havg & _ & _ & Hsome).
  - repeat constructor.
  - destruct Hsome as (_ & Hu & _ & Hrec); [discriminate |].
    exists a, w'. split_and!; done.
Defined.

Lemma queue_analytics_counts_witness :
  ∃ a w', get_queue_analytics sample_queue (world_with_history []) = (Ok a, w')
    ∧ total_patients a = 3
    ∧ uncalled_patients a = Some 2
    ∧ dict_total (priority_distribution a) = 2.
Proof.
  destruct (get_queue_analytics sample_queue (world_with_history []))
    as [[a|e] w'] eqn:Hrun; [| by vm_compute in Hrun].
  exists a, w'. split; [reflexivity |].
  destruct (queue_analytics_counts sample_queue (world_with_history []) a w')
    as (u & avg_wait & Hu & _ & Htotal & Hdist & _); [discriminate | exact Hrun |].
  vm_compute in Hrun. injection Hrun as <- <-.
  injection Hu as <-. split_and!; [exact Htotal | reflexivity | exact Hdist].
Defined.

Lemma queue_analytics_endpoint_counts_rows_witness :
  let w := world_of (F:=Q) ticking_clock
             [sample_patient 1 4 5 20 false; sample_patient 2 9 5 30 false;
              sample_patient 3 9 20 10 true] in
  ∃ a w', queue_analytics_endpoint w = (Ok a, w')
    ∧ total_patients a = 3
    ∧ uncalled_patients a = Some 2
    ∧ dict_count (priority_distribution a) (VStr "Critical") = 1.
Proof.
  intros w.
  destruct (queue_analytics_endpoint_counts_rows w)
    as (a & w' & Hrun & _ & _ & _ & Htotal & Hrows).
  destruct Hrows as (Hu & Hlevels & _); [discriminate |].
  exists a, w'.
  split_and!; [exact Hrun | exact Htotal | exact Hu | exact (Hlevels "Critical")].
Defined.
